(** * VRAM probers and the ASL log forwarder

    A shallow embedding of

    - [pkg/gpuinfo/nvapi.c]  ([getVRAMSize], Windows, NVAPI),
    - [pkg/gpuinfo/nvidia.c] ([getVRAMSize], Linux, NVML),
    - [common/pkg/logger/asl_darwin.c] ([apple_asl_logger_log]),

    together with the properties the specification states about them.

    The C functions talk to the dynamic loader and to a vendor library.
    Both are modelled as an immutable environment of answers (a mock), and
    every call the C code makes is appended to a trace, so that statements
    such as "the library is unloaded exactly once" are statements about
    that trace. *)

From Stdlib Require Import ZArith List String Ascii Bool Lia.
Import ListNotations.
Open Scope Z_scope.

(** ** Pointers, events and the loader *)

(** [HMODULE], [void*] and function pointers: an address, [0] being NULL. *)
Definition ptr := Z.

(** The C test [!p]. *)
Definition is_null (p : ptr) : bool := p =? 0.

(** The four function-pointer locals of a prober, by role:
    [NvAPI_Initialize]/[nvmlInit],
    [NvAPI_EnumPhysicalGPUs]/[nvmlDeviceGetHandleByIndex],
    [NvAPI_GPU_GetMemoryInfo]/[nvmlDeviceGetMemoryInfo],
    [NvAPI_Unload]/[nvmlShutdown]. *)
Inductive vfun : Type := FInit | FDevice | FMemory | FShutdown.

(** What a prober does to the outside world, in program order:
    - [EvLoad name h]: [LoadLibraryA]/[dlopen] of [name] answered [h];
    - [EvResolve h name p]: [GetProcAddress]/[dlsym] of [name] in [h]
      answered [p];
    - [EvUnload h]: [FreeLibrary]/[dlclose] of [h];
    - [EvCall f p args status]: the call through the pointer [p] held in
      the local [f], with the values passed in and the status returned. *)
Inductive event : Type :=
| EvLoad (name : string) (h : ptr)
| EvResolve (h : ptr) (name : string) (p : ptr)
| EvUnload (h : ptr)
| EvCall (f : vfun) (p : ptr) (args : list Z) (status : Z).

(** The operating system's loader, as a table of answers. *)
Record Loader : Type := {
  lib_open : string -> ptr;
  lib_sym : ptr -> string -> ptr
}.

(** Conversion of an unsigned value to a [size_t] of [bits] bits. *)
Definition to_size_t (bits : Z) (x : Z) : Z := x mod 2 ^ bits.

(** ** Statements with early [return]

    A C statement either falls through to the next one with a value, or
    returns from the function. *)
Inductive outcome (A : Type) : Type :=
| Continue (a : A)
| Returned (r : Z).
Arguments Continue {A} a.
Arguments Returned {A} r.

Definition M (A : Type) : Type := list event -> outcome A * list event.

Definition ret {A} (a : A) : M A := fun tr => (Continue a, tr).

Definition return_ {A} (r : Z) : M A := fun tr => (Returned r, tr).

Definition bind {A B} (m : M A) (k : A -> M B) : M B :=
  fun tr =>
    match m tr with
    | (Continue a, tr') => k a tr'
    | (Returned r, tr') => (Returned r, tr')
    end.

Definition emit (e : event) : M unit := fun tr => (Continue tt, tr ++ [e]).

Declare Scope stmt_scope.
Delimit Scope stmt_scope with stmt.
Notation "x <- m ;; k" := (bind m (fun x => k))
  (at level 61, m at next level, right associativity) : stmt_scope.
Notation "' pat <- m ;; k" := (bind m (fun x => match x with pat => k end))
  (at level 61, pat pattern, m at next level, right associativity) : stmt_scope.
Notation "m ;; k" := (bind m (fun _ => k))
  (at level 61, right associativity) : stmt_scope.

(** A function body has no fall-through exit: every path ends in [return]. *)
Definition call_function (body : M Empty_set) (tr : list event) : Z * list event :=
  match body tr with
  | (Returned r, tr') => (r, tr')
  | (Continue a, _) => match a with end
  end.

(** The loader's three operations, as traced statements. *)
Section LoaderOps.
Variable ld : Loader.

Definition load (name : string) : M ptr :=
  (let h := lib_open ld name in emit (EvLoad name h) ;; ret h)%stmt.

Definition resolve (h : ptr) (name : string) : M ptr :=
  (let p := lib_sym ld h name in emit (EvResolve h name p) ;; ret p)%stmt.

End LoaderOps.

Definition unload (h : ptr) : M unit := emit (EvUnload h).

(** ** Observations on a trace *)

Definition is_load_ok (e : event) : bool :=
  match e with EvLoad _ h => negb (is_null h) | _ => false end.

Definition is_unload (e : event) : bool :=
  match e with EvUnload _ => true | _ => false end.

Definition is_call (e : event) : bool :=
  match e with EvCall _ _ _ _ => true | _ => false end.

Definition is_call_of (f : vfun) (e : event) : bool :=
  match e, f with
  | EvCall FInit _ _ _, FInit
  | EvCall FDevice _ _ _, FDevice
  | EvCall FMemory _ _ _, FMemory
  | EvCall FShutdown _ _ _, FShutdown => true
  | _, _ => false
  end.

Definition count_events (p : event -> bool) (tr : list event) : nat :=
  List.length (filter p tr).

Definition load_count : list event -> nat := count_events is_load_ok.
Definition unload_count : list event -> nat := count_events is_unload.
Definition call_count : list event -> nat := count_events is_call.
Definition shutdown_count : list event -> nat := count_events (is_call_of FShutdown).

(** [h] is the handle the prober ends up with: the primary name opened,
    or the primary failed and the secondary opened. *)
Definition opened (ld : Loader) (primary secondary : string) (h : ptr) : Prop :=
  h <> 0 /\
  (lib_open ld primary = h \/
   (lib_open ld primary = 0 /\ lib_open ld secondary = h)).

(** ** The Windows variant: [pkg/gpuinfo/nvapi.c] *)
Module Nvapi.

Definition NVAPI_OK : Z := 0.

Record NV_DISPLAY_DRIVER_MEMORY_INFO : Type := {
  version : Z;
  dedicatedVideoMemory : Z;
  availableDedicatedVideoMemory : Z;
  systemVideoMemory : Z;
  sharedSystemMemory : Z
}.

Definition NV_DISPLAY_DRIVER_MEMORY_INFO_VER : Z := 0x10028.

(** The assignment [memInfo.version = v]. *)
Definition set_version (m : NV_DISPLAY_DRIVER_MEMORY_INFO) (v : Z) :=
  {| version := v;
     dedicatedVideoMemory := dedicatedVideoMemory m;
     availableDedicatedVideoMemory := availableDedicatedVideoMemory m;
     systemVideoMemory := systemVideoMemory m;
     sharedSystemMemory := sharedSystemMemory m |}.

(** The vendor library: what the code found at an address does when it is
    called.  [nv_EnumPhysicalGPUs] gives the status and the contents of
    [handles] and [count] after the call; [nv_GetMemoryInfo] takes the GPU
    handle and the record as passed in and gives the status and the record
    after the call.  [stack_memInfo] is what the uninitialised local
    [memInfo] happens to hold on entry. *)
Record Api : Type := {
  nv_Initialize : ptr -> Z;
  nv_EnumPhysicalGPUs : ptr -> Z * list ptr * Z;
  nv_GetMemoryInfo :
    ptr -> ptr -> NV_DISPLAY_DRIVER_MEMORY_INFO -> Z * NV_DISPLAY_DRIVER_MEMORY_INFO;
  nv_Unload : ptr -> Z;
  stack_memInfo : NV_DISPLAY_DRIVER_MEMORY_INFO
}.

Definition primary : string := "nvapi64.dll".
Definition secondary : string := "nvapi.dll".
Definition sym_Initialize : string := "NvAPI_Initialize".
Definition sym_EnumPhysicalGPUs : string := "NvAPI_EnumPhysicalGPUs".
Definition sym_GetMemoryInfo : string := "NvAPI_GPU_GetMemoryInfo".
Definition sym_Unload : string := "NvAPI_Unload".

Section Prober.
Variable size_t_bits : Z.
Variable ld : Loader.
Variable api : Api.

Definition call_Initialize (p : ptr) : M Z :=
  (let status := nv_Initialize api p in
   emit (EvCall FInit p [] status) ;; ret status)%stmt.

Definition call_EnumPhysicalGPUs (p : ptr) : M (Z * list ptr * Z) :=
  (let r := nv_EnumPhysicalGPUs api p in
   emit (EvCall FDevice p [] (fst (fst r))) ;; ret r)%stmt.

Definition call_GetMemoryInfo (p : ptr) (gpu : ptr)
    (memInfo : NV_DISPLAY_DRIVER_MEMORY_INFO)
  : M (Z * NV_DISPLAY_DRIVER_MEMORY_INFO) :=
  (let r := nv_GetMemoryInfo api p gpu memInfo in
   emit (EvCall FMemory p [gpu; version memInfo] (fst r)) ;; ret r)%stmt.

Definition call_Unload (p : ptr) : M unit :=
  emit (EvCall FShutdown p [] (nv_Unload api p)).

(** [handles[0]]; a slot the vendor did not write reads as NULL here (C
    leaves it indeterminate). *)
Definition first_handle (handles : list ptr) : ptr := nth 0 handles 0.

Definition getVRAMSize_body : M Empty_set :=
  (let count := 0 in
   let memInfo := stack_memInfo api in
   (* Try to load nvapi64.dll first, then fallback to nvapi.dll *)
   handle <- load ld primary ;;
   handle <- (if is_null handle then
                handle <- load ld secondary ;;
                if is_null handle then return_ 0 else ret handle
              else ret handle) ;;
   (* Load required functions *)
   NvAPI_Initialize <- resolve ld handle sym_Initialize ;;
   NvAPI_EnumPhysicalGPUs <- resolve ld handle sym_EnumPhysicalGPUs ;;
   NvAPI_GPU_GetMemoryInfo <- resolve ld handle sym_GetMemoryInfo ;;
   NvAPI_Unload <- resolve ld handle sym_Unload ;;
   (if is_null NvAPI_Initialize || is_null NvAPI_EnumPhysicalGPUs
       || is_null NvAPI_GPU_GetMemoryInfo || is_null NvAPI_Unload
    then unload handle ;; return_ 0
    else ret tt) ;;
   status <- call_Initialize NvAPI_Initialize ;;
   (if negb (status =? NVAPI_OK)
    then unload handle ;; return_ 0
    else ret tt) ;;
   '(status, handles, count) <- call_EnumPhysicalGPUs NvAPI_EnumPhysicalGPUs ;;
   (if negb (status =? NVAPI_OK) || (count =? 0)
    then call_Unload NvAPI_Unload ;; unload handle ;; return_ 0
    else ret tt) ;;
   let memInfo := set_version memInfo NV_DISPLAY_DRIVER_MEMORY_INFO_VER in
   '(status, memInfo) <- call_GetMemoryInfo NvAPI_GPU_GetMemoryInfo
                                             (first_handle handles) memInfo ;;
   (if negb (status =? NVAPI_OK)
    then call_Unload NvAPI_Unload ;; unload handle ;; return_ 0
    else ret tt) ;;
   call_Unload NvAPI_Unload ;;
   unload handle ;;
   (* Return dedicated video memory in bytes (convert from KB) *)
   return_ (to_size_t size_t_bits
              (to_size_t size_t_bits (dedicatedVideoMemory memInfo) * 1024)))%stmt.

Definition getVRAMSize : list event -> Z * list event :=
  call_function getVRAMSize_body.

End Prober.

End Nvapi.

(** ** The Linux variant: [pkg/gpuinfo/nvidia.c] *)
Module Nvml.

Definition NVML_SUCCESS : Z := 0.

Record nvmlMemory_t : Type := {
  total : Z;
  free : Z;
  used : Z
}.

(** The vendor library.  [nvml_DeviceGetHandleByIndex] takes the index and
    gives the status and the contents of [device] after the call;
    [nvml_DeviceGetMemoryInfo] takes the device and gives the status and
    the contents of [memory] after the call. *)
Record Api : Type := {
  nvml_Init : ptr -> Z;
  nvml_Shutdown : ptr -> Z;
  nvml_DeviceGetHandleByIndex : ptr -> Z -> Z * ptr;
  nvml_DeviceGetMemoryInfo : ptr -> ptr -> Z * nvmlMemory_t
}.

Definition primary : string := "libnvidia-ml.so.1".
Definition secondary : string := "libnvidia-ml.so".
Definition sym_Init : string := "nvmlInit".
Definition sym_Shutdown : string := "nvmlShutdown".
Definition sym_DeviceGetHandleByIndex : string := "nvmlDeviceGetHandleByIndex".
Definition sym_DeviceGetMemoryInfo : string := "nvmlDeviceGetMemoryInfo".

Section Prober.
Variable size_t_bits : Z.
Variable ld : Loader.
Variable api : Api.

Definition call_Init (p : ptr) : M Z :=
  (let result := nvml_Init api p in
   emit (EvCall FInit p [] result) ;; ret result)%stmt.

Definition call_DeviceGetHandleByIndex (p : ptr) (index : Z) : M (Z * ptr) :=
  (let r := nvml_DeviceGetHandleByIndex api p index in
   emit (EvCall FDevice p [index] (fst r)) ;; ret r)%stmt.

Definition call_DeviceGetMemoryInfo (p : ptr) (device : ptr)
  : M (Z * nvmlMemory_t) :=
  (let r := nvml_DeviceGetMemoryInfo api p device in
   emit (EvCall FMemory p [device] (fst r)) ;; ret r)%stmt.

Definition call_Shutdown (p : ptr) : M unit :=
  emit (EvCall FShutdown p [] (nvml_Shutdown api p)).

Definition getVRAMSize_body : M Empty_set :=
  ((* Try to load libnvidia-ml.so.1 first, then fallback to libnvidia-ml.so *)
   handle <- load ld primary ;;
   handle <- (if is_null handle then
                handle <- load ld secondary ;;
                if is_null handle then return_ 0 else ret handle
              else ret handle) ;;
   (* Load required functions *)
   nvmlInit <- resolve ld handle sym_Init ;;
   nvmlShutdown <- resolve ld handle sym_Shutdown ;;
   nvmlDeviceGetHandleByIndex <- resolve ld handle sym_DeviceGetHandleByIndex ;;
   nvmlDeviceGetMemoryInfo <- resolve ld handle sym_DeviceGetMemoryInfo ;;
   (if is_null nvmlInit || is_null nvmlShutdown
       || is_null nvmlDeviceGetHandleByIndex || is_null nvmlDeviceGetMemoryInfo
    then unload handle ;; return_ 0
    else ret tt) ;;
   result <- call_Init nvmlInit ;;
   (if negb (result =? NVML_SUCCESS)
    then unload handle ;; return_ 0
    else ret tt) ;;
   '(result, device) <- call_DeviceGetHandleByIndex nvmlDeviceGetHandleByIndex 0 ;;
   (if negb (result =? NVML_SUCCESS)
    then call_Shutdown nvmlShutdown ;; unload handle ;; return_ 0
    else ret tt) ;;
   '(result, memory) <- call_DeviceGetMemoryInfo nvmlDeviceGetMemoryInfo device ;;
   (if negb (result =? NVML_SUCCESS)
    then call_Shutdown nvmlShutdown ;; unload handle ;; return_ 0
    else ret tt) ;;
   call_Shutdown nvmlShutdown ;;
   unload handle ;;
   return_ (to_size_t size_t_bits (total memory)))%stmt.

Definition getVRAMSize : list event -> Z * list event :=
  call_function getVRAMSize_body.

End Prober.

End Nvml.

(** ** The log forwarder: [common/pkg/logger/asl_darwin.c] *)
Module Asl.

(** A C string is represented by its bytes before the terminating NUL, so
    that [strlen] is the length of the list. *)
Definition cstring := list ascii.

Definition lit (s : string) : cstring := list_ascii_of_string s.

Definition INT_MIN : Z := -2147483648.
Definition INT_MAX : Z := 2147483647.

(** Addition of two [int]s; signed overflow is undefined behaviour. *)
Definition add_int (a b : Z) : option Z :=
  let s := a + b in
  if (INT_MIN <=? s) && (s <=? INT_MAX) then Some s else None.

(** Darwin is LP64: [size_t] has 64 bits.  An [int] compared with a
    [size_t] is first converted to [size_t]. *)
Definition size_t_bits : Z := 64.

Definition strlen (s : cstring) : Z := Z.of_nat (List.length s).

(** Calls into the ASL library, in program order, with the client and
    message they were given. *)
Inductive call : Type :=
| AslOpen (ident facility : string) (opts : Z)
| AslNew (type : Z)
| AslLog (client msg : ptr) (level : Z) (text : cstring).

(** The file-scope statics [asl] and [log_msg]. *)
Record statics : Type := {
  asl : ptr;
  log_msg : ptr
}.

(** The statics as the loader leaves them: both NULL. *)
Definition statics_init : statics := {| asl := 0; log_msg := 0 |}.

(** The ASL library: what [asl_open] and [asl_new] answer, and the
    constant [ASL_TYPE_MSG] of [asl.h]. *)
Record Lib : Type := {
  asl_open : string -> string -> Z -> ptr;
  asl_new : Z -> ptr;
  ASL_TYPE_MSG : Z
}.

(** How a run of the function ends. *)
Inductive result (A : Type) : Type :=
| Done (a : A)
| Undefined      (* signed overflow of [pos] *)
| OutOfFuel.     (* the bound on loop iterations was too small *)
Arguments Done {A} a.
Arguments Undefined {A}.
Arguments OutOfFuel {A}.

(** [enum { step = 1000 }]. *)
Definition step : Z := 1000.

(** The conversions ["%s"] and ["%.*s"] of the format string. *)
Definition fmt_s (s : cstring) : cstring := s.
Definition fmt_prec_s (prec : Z) (s : cstring) : cstring := firstn (Z.to_nat prec) s.

(** [message + pos]. *)
Definition advance (message : cstring) (pos : Z) : cstring :=
  skipn (Z.to_nat pos) message.

Section Logger.
Variable lib : Lib.

(** The [for] loop, from the test [pos < len] on, with a bound on the
    number of tests still allowed. *)
Fixpoint split_loop (fuel : nat) (st : statics) (level : Z) (message : cstring)
    (len : Z) (pos : Z) (out : list call) : result (list call) :=
  match fuel with
  | O => OutOfFuel
  | S fuel' =>
    if to_size_t size_t_bits pos <? len then
      match add_int pos step with
      | None => Undefined
      | Some next =>
        let text :=
          fmt_s (if pos =? 0 then lit "" else lit "[...] ")
          ++ fmt_prec_s step (advance message pos)
          ++ fmt_s (if to_size_t size_t_bits next <? len then lit " [...]" else lit "") in
        split_loop fuel' st level message len next
                   (out ++ [AslLog (asl st) (log_msg st) level text])
      end
    else Done out
  end.

Definition apple_asl_logger_log (level : Z) (message : cstring)
    (w : statics * list call) : result (statics * list call) :=
  let '(st, out) := w in
  let '(st, out) :=
    if is_null (asl st) then
      let a := asl_open lib "Docker" "com.docker.docker" 0 in
      let out := out ++ [AslOpen "Docker" "com.docker.docker" 0] in
      let m := asl_new lib (ASL_TYPE_MSG lib) in
      let out := out ++ [AslNew (ASL_TYPE_MSG lib)] in
      ({| asl := a; log_msg := m |}, out)
    else (st, out) in
  (* The max length for log entries is 1024 bytes.  Beyond, they are
     truncated.  In that case, split into several log entries. *)
  let len := strlen message in
  if len <? 1024 then
    Done (st, out ++ [AslLog (asl st) (log_msg st) level (fmt_s message)])
  else
    match split_loop (S (List.length message)) st level message len 0 out with
    | Done out => Done (st, out)
    | Undefined => Undefined
    | OutOfFuel => OutOfFuel
    end.

End Logger.

(** The texts handed to [asl_log], in order. *)
Fixpoint logged (out : list call) : list cstring :=
  match out with
  | [] => []
  | AslLog _ _ _ text :: out' => text :: logged out'
  | _ :: out' => logged out'
  end.

(** *** Vocabulary for the statements *)

Definition continuation_prefix : cstring := lit "[...] ".
Definition more_suffix : cstring := lit " [...]".



Definition ceil_div (a b : nat) : nat := ((a + (b - 1)) / b)%nat.


(** The longest message for which [pos] stays within [int]. *)
Definition max_len : Z := 2147483000.

(** The text of the loop's call number [i], counting from 0. *)
Definition log_text (message : cstring) (i : nat) : cstring :=
  (if (i =? 0)%nat then [] else continuation_prefix)
  ++ firstn 1000 (skipn (1000 * i) message)
  ++ (if (1000 * (i + 1) <? List.length message)%nat then more_suffix else []).

(** A mock ASL library and a message of [n] bytes. *)
Definition mock_lib : Lib :=
  {| asl_open := fun _ _ _ => 5; asl_new := fun _ => 6; ASL_TYPE_MSG := 0 |}.

Definition mock_message (n : nat) : cstring := repeat "a"%char n.

End Asl.

(** ** The two variants behind one name

    Each variant is compiled only for its operating system and both export
    [getVRAMSize]; the build tag picks one. *)
Inductive variant : Type :=
| Windows (api : Nvapi.Api)
| Linux (api : Nvml.Api).

Definition getVRAMSize (size_t_bits : Z) (ld : Loader) (v : variant)
  : list event -> Z * list event :=
  match v with
  | Windows api => Nvapi.getVRAMSize size_t_bits ld api
  | Linux api => Nvml.getVRAMSize size_t_bits ld api
  end.

(** *** Vocabulary for the statements

    Names for what the environment answers at each step of a probe that
    holds the library handle [h]. *)

Definition primary (v : variant) : string :=
  match v with Windows _ => Nvapi.primary | Linux _ => Nvml.primary end.

Definition secondary (v : variant) : string :=
  match v with Windows _ => Nvapi.secondary | Linux _ => Nvml.secondary end.

(** The exported name behind each function pointer. *)
Definition symbol (v : variant) (f : vfun) : string :=
  match v, f with
  | Windows _, FInit => Nvapi.sym_Initialize
  | Windows _, FDevice => Nvapi.sym_EnumPhysicalGPUs
  | Windows _, FMemory => Nvapi.sym_GetMemoryInfo
  | Windows _, FShutdown => Nvapi.sym_Unload
  | Linux _, FInit => Nvml.sym_Init
  | Linux _, FDevice => Nvml.sym_DeviceGetHandleByIndex
  | Linux _, FMemory => Nvml.sym_DeviceGetMemoryInfo
  | Linux _, FShutdown => Nvml.sym_Shutdown
  end.

(** The order in which the pointers are resolved. *)
Definition resolution_order (v : variant) : list vfun :=
  match v with
  | Windows _ => [FInit; FDevice; FMemory; FShutdown]
  | Linux _ => [FInit; FShutdown; FDevice; FMemory]
  end.

(** The status both vendor APIs use for success. *)
Definition success (v : variant) : Z :=
  match v with Windows _ => Nvapi.NVAPI_OK | Linux _ => Nvml.NVML_SUCCESS end.

Section Vocabulary.
Variable ld : Loader.
Variable v : variant.
Variable h : ptr.

Definition lib_opened : Prop := opened ld (primary v) (secondary v) h.

Definition fptr (f : vfun) : ptr := lib_sym ld h (symbol v f).

Definition resolved : Prop := forall f, fptr f <> 0.

Definition init_status : Z :=
  match v with
  | Windows api => Nvapi.nv_Initialize api (fptr FInit)
  | Linux api => Nvml.nvml_Init api (fptr FInit)
  end.

Definition device_args : list Z :=
  match v with Windows _ => [] | Linux _ => [0] end.

Definition device_status : Z :=
  match v with
  | Windows api => fst (fst (Nvapi.nv_EnumPhysicalGPUs api (fptr FDevice)))
  | Linux api => fst (Nvml.nvml_DeviceGetHandleByIndex api (fptr FDevice) 0)
  end.

(** Enumeration reported zero devices (get-by-index has no count). *)
Definition no_device : Prop :=
  match v with
  | Windows api => snd (Nvapi.nv_EnumPhysicalGPUs api (fptr FDevice)) = 0
  | Linux _ => False
  end.

Definition device : ptr :=
  match v with
  | Windows api =>
      Nvapi.first_handle (snd (fst (Nvapi.nv_EnumPhysicalGPUs api (fptr FDevice))))
  | Linux api => snd (Nvml.nvml_DeviceGetHandleByIndex api (fptr FDevice) 0)
  end.

(** The version tag the memory-info record carries into the query, if the
    record has one. *)
Definition version_tag : option Z :=
  match v with
  | Windows _ => Some Nvapi.NV_DISPLAY_DRIVER_MEMORY_INFO_VER
  | Linux _ => None
  end.

Definition memory_args : list Z :=
  device :: match version_tag with Some tag => [tag] | None => [] end.

Definition memory_status : Z :=
  match v with
  | Windows api =>
      fst (Nvapi.nv_GetMemoryInfo api (fptr FMemory) device
             (Nvapi.set_version (Nvapi.stack_memInfo api)
                                Nvapi.NV_DISPLAY_DRIVER_MEMORY_INFO_VER))
  | Linux api => fst (Nvml.nvml_DeviceGetMemoryInfo api (fptr FMemory) device)
  end.

(** The counter the vendor reported: dedicated video memory in kilobytes,
    or total memory in bytes. *)
Definition vendor_memory : Z :=
  match v with
  | Windows api =>
      Nvapi.dedicatedVideoMemory
        (snd (Nvapi.nv_GetMemoryInfo api (fptr FMemory) device
                (Nvapi.set_version (Nvapi.stack_memInfo api)
                                   Nvapi.NV_DISPLAY_DRIVER_MEMORY_INFO_VER)))
  | Linux api =>
      Nvml.total (snd (Nvml.nvml_DeviceGetMemoryInfo api (fptr FMemory) device))
  end.

Definition shutdown_status : Z :=
  match v with
  | Windows api => Nvapi.nv_Unload api (fptr FShutdown)
  | Linux api => Nvml.nvml_Shutdown api (fptr FShutdown)
  end.


(** The events of each step. *)
Definition load_events : list event :=
  if is_null (lib_open ld (primary v))
  then [EvLoad (primary v) (lib_open ld (primary v));
        EvLoad (secondary v) (lib_open ld (secondary v))]
  else [EvLoad (primary v) (lib_open ld (primary v))].

Definition resolve_events : list event :=
  map (fun f => EvResolve h (symbol v f) (fptr f)) (resolution_order v).

Definition ev_init : event := EvCall FInit (fptr FInit) [] init_status.
Definition ev_device : event := EvCall FDevice (fptr FDevice) device_args device_status.
Definition ev_memory : event := EvCall FMemory (fptr FMemory) memory_args memory_status.
Definition ev_shutdown : event := EvCall FShutdown (fptr FShutdown) [] shutdown_status.

(** The failure injection points. *)
Inductive failure_at : Prop :=
| MissingSymbol (f : vfun) : fptr f = 0 -> failure_at
| InitFailed : init_status <> success v -> failure_at
| DeviceFailed : device_status <> success v -> failure_at
| NoDevice : no_device -> failure_at
| QueryFailed : memory_status <> success v -> failure_at.

(** Every step of the probe succeeds. *)
Definition probe_succeeds : Prop :=
  lib_opened /\ resolved /\ init_status = success v /\
  device_status = success v /\ ~ no_device /\ memory_status = success v.

End Vocabulary.

Inductive failure (ld : Loader) (v : variant) : Prop :=
| NoLibrary :
    lib_open ld (primary v) = 0 -> lib_open ld (secondary v) = 0 -> failure ld v
| FailureAt (h : ptr) :
    lib_opened ld v h -> failure_at ld v h -> failure ld v.

(** Where a probe that holds a library handle leaves the function. *)
Inductive stage : Type := AtResolve | AtInit | AtDevice | AtQuery | AtEnd.

Section Stages.
Variable ld : Loader.
Variable v : variant.
Variable h : ptr.

Definition exits_at (s : stage) : Prop :=
  match s with
  | AtResolve => exists f, fptr ld v h f = 0
  | AtInit => resolved ld v h /\ init_status ld v h <> success v
  | AtDevice =>
      resolved ld v h /\ init_status ld v h = success v /\
      (device_status ld v h <> success v \/ no_device ld v h)
  | AtQuery =>
      resolved ld v h /\ init_status ld v h = success v /\
      device_status ld v h = success v /\ ~ no_device ld v h /\
      memory_status ld v h <> success v
  | AtEnd =>
      resolved ld v h /\ init_status ld v h = success v /\
      device_status ld v h = success v /\ ~ no_device ld v h /\
      memory_status ld v h = success v
  end.

(** The events after symbol resolution, up to the [return]. *)
Definition tail_events (s : stage) : list event :=
  match s with
  | AtResolve => [EvUnload h]
  | AtInit => [ev_init ld v h; EvUnload h]
  | AtDevice => [ev_init ld v h; ev_device ld v h; ev_shutdown ld v h; EvUnload h]
  | AtQuery | AtEnd =>
      [ev_init ld v h; ev_device ld v h; ev_memory ld v h; ev_shutdown ld v h;
       EvUnload h]
  end.

(** The operand of the final [return], as the C code computes it. *)
Definition returned_value (size_t_bits : Z) : Z :=
  match v with
  | Windows _ =>
      to_size_t size_t_bits (to_size_t size_t_bits (vendor_memory ld v h) * 1024)
  | Linux _ => to_size_t size_t_bits (vendor_memory ld v h)
  end.

Definition exit_value (size_t_bits : Z) (s : stage) : Z :=
  match s with
  | AtEnd => returned_value size_t_bits
  | _ => 0
  end.

End Stages.

(** The loader [ld], except that the name [name] opens as [h]. *)
Definition with_open (ld : Loader) (name : string) (h : ptr) : Loader :=
  {| lib_open := fun n => if String.eqb n name then h else lib_open ld n;
     lib_sym := lib_sym ld |}.

(** ** Mock environments

    A loader whose primary and secondary names open as [first] and
    [second] (0 for a failure) and whose libraries lack the symbols listed
    in [missing]; vendor libraries that answer with fixed statuses and
    counters. *)
Definition mock_loader (first second : ptr) (missing : list string) : Loader :=
  {| lib_open := fun name =>
       if String.eqb name Nvapi.primary || String.eqb name Nvml.primary then first
       else if String.eqb name Nvapi.secondary || String.eqb name Nvml.secondary
            then second
            else 0;
     lib_sym := fun h name =>
       if existsb (String.eqb name) missing then 0
       else h + Z.of_nat (String.length name) |}.

Definition mock_windows (init enum count query dedicated : Z) : variant :=
  Windows
    {| Nvapi.nv_Initialize := fun _ => init;
       Nvapi.nv_EnumPhysicalGPUs := fun _ => (enum, repeat 42 (Z.to_nat count), count);
       Nvapi.nv_GetMemoryInfo := fun _ _ m =>
         (query,
          {| Nvapi.version := Nvapi.version m;
             Nvapi.dedicatedVideoMemory := dedicated;
             Nvapi.availableDedicatedVideoMemory := 0;
             Nvapi.systemVideoMemory := 0;
             Nvapi.sharedSystemMemory := 0 |});
       Nvapi.nv_Unload := fun _ => 0;
       Nvapi.stack_memInfo :=
         {| Nvapi.version := 0;
            Nvapi.dedicatedVideoMemory := 0;
            Nvapi.availableDedicatedVideoMemory := 0;
            Nvapi.systemVideoMemory := 0;
            Nvapi.sharedSystemMemory := 0 |} |}.

Definition mock_linux (init dev query total : Z) : variant :=
  Linux
    {| Nvml.nvml_Init := fun _ => init;
       Nvml.nvml_Shutdown := fun _ => 0;
       Nvml.nvml_DeviceGetHandleByIndex := fun _ _ => (dev, 42);
       Nvml.nvml_DeviceGetMemoryInfo := fun _ _ =>
         (query, {| Nvml.total := total; Nvml.free := 0; Nvml.used := 0 |}) |}.

(** ** Further observations on a prober's trace *)

Definition is_load (e : event) : bool :=
  match e with EvLoad _ _ => true | _ => false end.

Definition is_resolve (e : event) : bool :=
  match e with EvResolve _ _ _ => true | _ => false end.

(** The vendor functions called, by role, in program order. *)
Fixpoint called (tr : list event) : list vfun :=
  match tr with
  | [] => []
  | EvCall f _ _ _ :: tr' => f :: called tr'
  | _ :: tr' => called tr'
  end.

(** The variant [v] with a vendor library whose shutdown function answers
    [st] instead. *)
Definition with_shutdown (v : variant) (st : ptr -> Z) : variant :=
  match v with
  | Windows api =>
      Windows
        {| Nvapi.nv_Initialize := Nvapi.nv_Initialize api;
           Nvapi.nv_EnumPhysicalGPUs := Nvapi.nv_EnumPhysicalGPUs api;
           Nvapi.nv_GetMemoryInfo := Nvapi.nv_GetMemoryInfo api;
           Nvapi.nv_Unload := st;
           Nvapi.stack_memInfo := Nvapi.stack_memInfo api |}
  | Linux api =>
      Linux
        {| Nvml.nvml_Init := Nvml.nvml_Init api;
           Nvml.nvml_Shutdown := st;
           Nvml.nvml_DeviceGetHandleByIndex := Nvml.nvml_DeviceGetHandleByIndex api;
           Nvml.nvml_DeviceGetMemoryInfo := Nvml.nvml_DeviceGetMemoryInfo api |}
  end.

(** Bytes per unit of the vendor's counter. *)
Definition unit_bytes (v : variant) : Z :=
  match v with Windows _ => 1024 | Linux _ => 1 end.

(** ** Further observations on the log forwarder's calls *)





(** A message of [n] bytes, [n] given in binary. *)
Definition mock_long_message (n : Z) : Asl.cstring := repeat "a"%char (Z.to_nat n).

(** ** The diagnostic dump: [llamacpp/native/src/nv-gpu-info/nv-gpu-info.c] *)
Module NvGpuInfo.

(** An argument of [printf]. *)
Inductive arg : Type :=
| AInt (z : Z)
| AStr (s : string).

(** What [main] does to the outside world, in program order: a call into
    NVAPI with the values passed in, or a [printf] with its format and
    arguments. *)
Inductive event : Type :=
| Api (name : string) (args : list Z)
| Printf (fmt : string) (args : list arg).

(** A format that ends in a newline. *)
Definition line (s : string) : string :=
  (s ++ String (ascii_of_nat 10) EmptyString)%string.

(** The NVAPI library linked in, as a table of answers, with the constants
    of [nvapi.h] the program uses.  [NvAPI_SYS_GetPhysicalGPUs] takes the
    version field passed in and gives the status, [gpuHandleCount] and the
    handles of [gpuHandleData]; [NvAPI_GPU_GetMemoryInfoEx] takes the GPU
    and the version field and gives the status and
    [dedicatedVideoMemory]. *)
Record Sdk : Type := {
  NVAPI_OK : Z;
  NV_PHYSICAL_GPUS_VER1 : Z;
  NV_GPU_MEMORY_INFO_EX_VER_1 : Z;
  NvAPI_Initialize : Z;
  NvAPI_GetErrorMessage : Z -> string;
  NvAPI_SYS_GetDriverAndBranchVersion : Z * Z * string;
  NvAPI_SYS_GetPhysicalGPUs : Z -> Z * Z * list ptr;
  NvAPI_GPU_GetFullName : ptr -> Z * string;
  NvAPI_GPU_GetPCIIdentifiers : ptr -> Z * (Z * Z * Z * Z);
  NvAPI_GPU_GetMemoryInfoEx : ptr -> Z -> Z * Z
}.

(** [i++] on an [NvU32]. *)
Definition incr_u32 (i : Z) : Z := (i + 1) mod 2 ^ 32.

Section Main.
Variable sdk : Sdk.

(** The failure branch shared by the three setup calls: fetch the
    vendor's message for [status], print it, [return -1]. *)
Definition fail (status : Z) (what : string) (out : list event) : Z * list event :=
  let error_str := NvAPI_GetErrorMessage sdk status in
  (-1, out ++ [Api "NvAPI_GetErrorMessage" [status];
               Printf (line what) [AStr error_str]]).

(** The body of the [for] loop for GPU number [i]. *)
Definition dump_gpu (gpus : list ptr) (i : Z) (out : list event) : list event :=
  let gpu := nth (Z.to_nat i) gpus 0 in
  let '(status, gpu_name) := NvAPI_GPU_GetFullName sdk gpu in
  let out := out ++ [Api "NvAPI_GPU_GetFullName" [gpu]] in
  let out :=
    if status =? NVAPI_OK sdk
    then out ++ [Printf (line "GPU[%d]: full name: %s") [AInt i; AStr gpu_name]]
    else out ++ [Printf (line "GPU[%d]: full name: error") [AInt i]] in
  let '(status, (devid, subsysid, revid, extid)) := NvAPI_GPU_GetPCIIdentifiers sdk gpu in
  let out := out ++ [Api "NvAPI_GPU_GetPCIIdentifiers" [gpu]] in
  let out :=
    if status =? NVAPI_OK sdk
    then out ++ [Printf (line "GPU[%d]: pci ids: device_id: 0x%04x; subsystem_id: 0x%04x; revision_id: 0x%04x; ext_device_id: 0x%04x")
                        [AInt i; AInt devid; AInt subsysid; AInt revid; AInt extid]]
    else out ++ [Printf (line "GPU[%d]: pci ids: error") [AInt i]] in
  let version := NV_GPU_MEMORY_INFO_EX_VER_1 sdk in
  let '(status, dedicatedVideoMemory) := NvAPI_GPU_GetMemoryInfoEx sdk gpu version in
  let out := out ++ [Api "NvAPI_GPU_GetMemoryInfoEx" [gpu; version]] in
  if status =? NVAPI_OK sdk
  then out ++ [Printf (line "GPU[%d]: dedicated memory: %lld") [AInt i; AInt dedicatedVideoMemory]]
  else out ++ [Printf (line "GPU[%d]: dedicated memory: error") [AInt i]].

(** The [for] loop, from the test [i < gpuHandleCount] on, with a bound on
    the number of tests still allowed. *)
Fixpoint dump_loop (fuel : nat) (gpus : list ptr) (count : Z) (i : Z)
    (out : list event) : option (list event) :=
  match fuel with
  | O => None
  | S fuel' =>
    if i <? count
    then dump_loop fuel' gpus count (incr_u32 i) (dump_gpu gpus i out)
    else Some out
  end.

(** [main]: the exit status and the events, or [None] if the bound on loop
    iterations was too small. *)
Definition main : option (Z * list event) :=
  let status := NvAPI_Initialize sdk in
  let out := [Api "NvAPI_Initialize" []] in
  if negb (status =? NVAPI_OK sdk) then
    Some (fail status "Failed to initialise NVAPI: %s" out)
  else
    let '(status, driver_version, build_branch) :=
      NvAPI_SYS_GetDriverAndBranchVersion sdk in
    let out := out ++ [Api "NvAPI_SYS_GetDriverAndBranchVersion" []] in
    if negb (status =? NVAPI_OK sdk) then
      Some (fail status "Failed to retrieve driver info: %s" out)
    else
      let out := out ++ [Printf (line "driver version: %u") [AInt driver_version]] in
      let out := out ++ [Printf (line "build branch string: %s") [AStr build_branch]] in
      let version := NV_PHYSICAL_GPUS_VER1 sdk in
      let '(status, gpuHandleCount, gpuHandleData) :=
        NvAPI_SYS_GetPhysicalGPUs sdk version in
      let out := out ++ [Api "NvAPI_SYS_GetPhysicalGPUs" [version]] in
      if negb (status =? NVAPI_OK sdk) then
        Some (fail status "Failed to retrieve physical GPU descriptors: %s" out)
      else
        match dump_loop (S (Z.to_nat gpuHandleCount)) gpuHandleData gpuHandleCount 0 out with
        | Some out => Some (0, out)
        | None => None
        end.

End Main.

(** What the enumeration answers, and whether the three setup calls all
    report success. *)
Definition enumerated (sdk : Sdk) : Z * Z * list ptr :=
  NvAPI_SYS_GetPhysicalGPUs sdk (NV_PHYSICAL_GPUS_VER1 sdk).

Definition gpu_count (sdk : Sdk) : Z := snd (fst (enumerated sdk)).

Definition gpu_handles (sdk : Sdk) : list ptr := snd (enumerated sdk).

Definition setup_ok (sdk : Sdk) : Prop :=
  NvAPI_Initialize sdk = NVAPI_OK sdk /\
  fst (fst (NvAPI_SYS_GetDriverAndBranchVersion sdk)) = NVAPI_OK sdk /\
  fst (fst (enumerated sdk)) = NVAPI_OK sdk.

(** The [printf] calls, and the calls into NVAPI. *)
Definition is_printf (e : event) : bool :=
  match e with Printf _ _ => true | _ => false end.

Definition printed (out : list event) : list event := filter is_printf out.

Definition api_calls (out : list event) : list string :=
  flat_map (fun e => match e with Api name _ => [name] | _ => [] end) out.

(** The three lines [main] prints for GPU [i] with handle [gpu]. *)
Definition gpu_lines (sdk : Sdk) (gpu : ptr) (i : Z) : list event :=
  [ (let '(status, gpu_name) := NvAPI_GPU_GetFullName sdk gpu in
     if status =? NVAPI_OK sdk
     then Printf (line "GPU[%d]: full name: %s") [AInt i; AStr gpu_name]
     else Printf (line "GPU[%d]: full name: error") [AInt i]);
    (let '(status, (devid, subsysid, revid, extid)) :=
       NvAPI_GPU_GetPCIIdentifiers sdk gpu in
     if status =? NVAPI_OK sdk
     then Printf (line "GPU[%d]: pci ids: device_id: 0x%04x; subsystem_id: 0x%04x; revision_id: 0x%04x; ext_device_id: 0x%04x")
                 [AInt i; AInt devid; AInt subsysid; AInt revid; AInt extid]
     else Printf (line "GPU[%d]: pci ids: error") [AInt i]);
    (let '(status, dedicatedVideoMemory) :=
       NvAPI_GPU_GetMemoryInfoEx sdk gpu (NV_GPU_MEMORY_INFO_EX_VER_1 sdk) in
     if status =? NVAPI_OK sdk
     then Printf (line "GPU[%d]: dedicated memory: %lld") [AInt i; AInt dedicatedVideoMemory]
     else Printf (line "GPU[%d]: dedicated memory: error") [AInt i]) ].

(** A mock NVAPI with the given statuses of the three setup calls, [count]
    GPUs with handles 100, 101, ..., and per-GPU queries that succeed on
    even handles only. *)
Definition mock_sdk (init driver gpus : Z) (count : nat) : Sdk :=
  {| NVAPI_OK := 0;
     NV_PHYSICAL_GPUS_VER1 := 1;
     NV_GPU_MEMORY_INFO_EX_VER_1 := 2;
     NvAPI_Initialize := init;
     NvAPI_GetErrorMessage := fun _ => "error text"%string;
     NvAPI_SYS_GetDriverAndBranchVersion := (driver, 57264, "r572_00"%string);
     NvAPI_SYS_GetPhysicalGPUs := fun _ =>
       (gpus, Z.of_nat count, map (fun i => 100 + Z.of_nat i) (seq 0 count));
     NvAPI_GPU_GetFullName := fun gpu => (gpu mod 2, "GeForce"%string);
     NvAPI_GPU_GetPCIIdentifiers := fun gpu => (gpu mod 2, (1, 2, 3, 4));
     NvAPI_GPU_GetMemoryInfoEx := fun gpu _ => (gpu mod 2, 8589934592) |}.

End NvGpuInfo.

(** * Properties *)

(** ** The C tests as propositions *)

Lemma is_null_true (p : ptr) : is_null p = true <-> p = 0.
Proof. unfold is_null. apply Z.eqb_eq. Qed.

Lemma is_null_false (p : ptr) : is_null p = false <-> p <> 0.
Proof. unfold is_null. apply Z.eqb_neq. Qed.

Ltac bool_to_prop :=
  repeat match goal with
  | H : is_null _ = true |- _ => apply is_null_true in H
  | H : is_null _ = false |- _ => apply is_null_false in H
  | H : (_ || _)%bool = true |- _ => apply orb_true_iff in H; destruct H
  | H : (_ || _)%bool = false |- _ => apply orb_false_iff in H; destruct H
  | H : negb _ = true |- _ => apply negb_true_iff in H
  | H : negb _ = false |- _ => apply negb_false_iff in H
  | H : (_ =? _) = true |- _ => apply Z.eqb_eq in H
  | H : (_ =? _) = false |- _ => apply Z.eqb_neq in H
  end.

(** ** Running a probe symbolically *)

Ltac probe_unfold :=
  cbv beta iota zeta delta
    [getVRAMSize Nvapi.getVRAMSize Nvapi.getVRAMSize_body
     Nvml.getVRAMSize Nvml.getVRAMSize_body
     call_function bind load resolve unload
     Nvapi.call_Initialize Nvapi.call_EnumPhysicalGPUs
     Nvapi.call_GetMemoryInfo Nvapi.call_Unload
     Nvml.call_Init Nvml.call_DeviceGetHandleByIndex
     Nvml.call_DeviceGetMemoryInfo Nvml.call_Shutdown
     emit ret return_].

Ltac vocabulary_unfold :=
  cbv beta iota zeta delta
    [lib_opened opened resolved fptr symbol primary secondary success
     resolution_order init_status device_args device_status no_device
     device version_tag memory_args memory_status vendor_memory
     shutdown_status load_events resolve_events
     ev_init ev_device ev_memory ev_shutdown
     exits_at tail_events exit_value returned_value map] in *.

Ltac probe_case :=
  match goal with
  | |- context [Nvapi.nv_EnumPhysicalGPUs ?a ?p] =>
      destruct (Nvapi.nv_EnumPhysicalGPUs a p) as [[? ?] ?] eqn:?
  | |- context [Nvapi.nv_GetMemoryInfo ?a ?p ?g ?m] =>
      destruct (Nvapi.nv_GetMemoryInfo a p g m) as [? ?] eqn:?
  | |- context [Nvml.nvml_DeviceGetHandleByIndex ?a ?p ?i] =>
      destruct (Nvml.nvml_DeviceGetHandleByIndex a p i) as [? ?] eqn:?
  | |- context [Nvml.nvml_DeviceGetMemoryInfo ?a ?p ?d] =>
      destruct (Nvml.nvml_DeviceGetMemoryInfo a p d) as [? ?] eqn:?
  | |- context [if ?b then _ else _] => destruct b eqn:?
  end.

Ltac pair_facts :=
  repeat match goal with
  | H1 : ?t = _, H2 : ?t = _ |- _ => rewrite H1 in H2
  | H : (_, _) = (_, _) |- _ => apply pair_equal_spec in H; destruct H; subst
  end.

Ltac probe_run :=
  vocabulary_unfold; probe_unfold;
  repeat (probe_case; cbn [fst snd] in * );
  bool_to_prop; pair_facts;
  try tauto; try congruence;
  rewrite <- ?app_assoc;
  cbn [app Nvapi.version Nvapi.set_version]; try reflexivity.

Ltac use_resolved H :=
  pose proof (H FInit); pose proof (H FDevice);
  pose proof (H FMemory); pose proof (H FShutdown); clear H.

(** No library: the function returns after the two attempts. *)
Lemma probe_no_library bits ld v tr :
  lib_open ld (primary v) = 0 -> lib_open ld (secondary v) = 0 ->
  getVRAMSize bits ld v tr = (0, tr ++ load_events ld v).
Proof.
  intros H1 H2. destruct v; probe_run.
Qed.

(** With a library: the complete trace of every exit. *)
Lemma probe_trace bits ld v h s tr :
  lib_opened ld v h -> exits_at ld v h s ->
  getVRAMSize bits ld v tr =
  (exit_value ld v h bits s,
   tr ++ load_events ld v ++ resolve_events ld v h ++ tail_events ld v h s).
Proof.
  intros [Hh Ho] Hs.
  destruct s; cbn [exits_at] in Hs.
  - destruct Hs as [f Hf].
    destruct Ho as [Ho | [Ho1 Ho2]]; subst h; destruct v, f; probe_run.
  - destruct Hs as (Hr & Hi). use_resolved Hr.
    destruct Ho as [Ho | [Ho1 Ho2]]; subst h; destruct v; probe_run.
  - destruct Hs as (Hr & Hi & Hd). use_resolved Hr.
    destruct Ho as [Ho | [Ho1 Ho2]]; subst h; destruct v; destruct Hd; probe_run.
  - destruct Hs as (Hr & Hi & Hd & Hn & Hm). use_resolved Hr.
    destruct Ho as [Ho | [Ho1 Ho2]]; subst h; destruct v; probe_run.
  - destruct Hs as (Hr & Hi & Hd & Hn & Hm). use_resolved Hr.
    destruct Ho as [Ho | [Ho1 Ho2]]; subst h; destruct v; probe_run.
Qed.

Lemma exit_exists ld v h : exists s, exits_at ld v h s.
Proof.
  destruct (Z.eq_dec (fptr ld v h FInit) 0) as [|H1];
    [exists AtResolve, FInit; assumption|].
  destruct (Z.eq_dec (fptr ld v h FDevice) 0) as [|H2];
    [exists AtResolve, FDevice; assumption|].
  destruct (Z.eq_dec (fptr ld v h FMemory) 0) as [|H3];
    [exists AtResolve, FMemory; assumption|].
  destruct (Z.eq_dec (fptr ld v h FShutdown) 0) as [|H4];
    [exists AtResolve, FShutdown; assumption|].
  assert (Hr : resolved ld v h) by (intros []; assumption).
  destruct (Z.eq_dec (init_status ld v h) (success v)) as [Hi|Hi];
    [|exists AtInit; split; assumption].
  destruct (Z.eq_dec (device_status ld v h) (success v)) as [Hd|Hd];
    [|exists AtDevice; cbn; auto].
  assert (Hn : no_device ld v h \/ ~ no_device ld v h).
  { destruct v; cbn; [|tauto].
    destruct (Z.eq_dec (snd (Nvapi.nv_EnumPhysicalGPUs api (fptr ld (Windows api) h FDevice))) 0);
      auto. }
  destruct Hn as [Hn|Hn]; [exists AtDevice; cbn; auto|].
  destruct (Z.eq_dec (memory_status ld v h) (success v)) as [Hm|Hm].
  - exists AtEnd; cbn; auto.
  - exists AtQuery; cbn; auto.
Qed.

Lemma library_cases ld v :
  (lib_open ld (primary v) = 0 /\ lib_open ld (secondary v) = 0) \/
  exists h, lib_opened ld v h.
Proof.
  unfold lib_opened, opened.
  destruct (Z.eq_dec (lib_open ld (primary v)) 0) as [H1|H1].
  - destruct (Z.eq_dec (lib_open ld (secondary v)) 0) as [H2|H2]; [auto|].
    right. exists (lib_open ld (secondary v)). auto.
  - right. exists (lib_open ld (primary v)). auto.
Qed.

Lemma lib_opened_unique ld v h h' :
  lib_opened ld v h -> lib_opened ld v h' -> h = h'.
Proof.
  unfold lib_opened, opened. intros [? [?|[? ?]]] [? [?|[? ?]]]; congruence.
Qed.

(** A failure injected at some step rules out the successful exit. *)
Lemma failure_at_not_end ld v h :
  failure_at ld v h -> ~ exits_at ld v h AtEnd.
Proof.
  intros Hf (Hr & Hi & Hd & Hn & Hm).
  destruct Hf as [f Hf| | | |]; try contradiction.
  exact (Hr f Hf).
Qed.

(** ** Counting events *)

Lemma count_events_app p tr1 tr2 :
  count_events p (tr1 ++ tr2) = (count_events p tr1 + count_events p tr2)%nat.
Proof. unfold count_events. now rewrite filter_app, length_app. Qed.

Lemma load_events_no_library ld v :
  lib_open ld (primary v) = 0 -> lib_open ld (secondary v) = 0 ->
  load_events ld v = [EvLoad (primary v) 0; EvLoad (secondary v) 0].
Proof.
  intros H1 H2. unfold load_events. rewrite H1, H2. reflexivity.
Qed.

Lemma load_events_opened ld v h :
  lib_opened ld v h ->
  load_events ld v = [EvLoad (primary v) h] \/
  (lib_open ld (primary v) = 0 /\
   load_events ld v = [EvLoad (primary v) 0; EvLoad (secondary v) h]).
Proof.
  intros [Hh [Ho | [Ho1 Ho2]]]; unfold load_events.
  - rewrite Ho. apply is_null_false in Hh. rewrite Hh. now left.
  - rewrite Ho1, Ho2. right. now split.
Qed.

Lemma load_events_counts ld v h :
  lib_opened ld v h ->
  load_count (load_events ld v) = 1%nat /\
  unload_count (load_events ld v) = 0%nat /\
  call_count (load_events ld v) = 0%nat /\
  shutdown_count (load_events ld v) = 0%nat.
Proof.
  intros Ho. pose proof Ho as [Hh _]. apply is_null_false in Hh.
  destruct (load_events_opened ld v h Ho) as [-> | [_ ->]];
    unfold load_count, unload_count, call_count, shutdown_count, count_events;
    cbn; rewrite Hh; cbn; auto.
Qed.

Lemma resolve_events_counts ld v h :
  load_count (resolve_events ld v h) = 0%nat /\
  unload_count (resolve_events ld v h) = 0%nat /\
  call_count (resolve_events ld v h) = 0%nat /\
  shutdown_count (resolve_events ld v h) = 0%nat.
Proof. destruct v; cbn; auto. Qed.

Lemma tail_events_counts ld v h s :
  load_count (tail_events ld v h s) = 0%nat /\
  unload_count (tail_events ld v h s) = 1%nat /\
  call_count (tail_events ld v h s) =
    match s with
    | AtResolve => 0 | AtInit => 1 | AtDevice => 3 | AtQuery | AtEnd => 4
    end%nat /\
  shutdown_count (tail_events ld v h s) =
    match s with AtResolve | AtInit => 0 | _ => 1 end%nat.
Proof. destruct s; cbn; auto. Qed.

(** The events of a probe that holds [h], counted. *)
Lemma probe_counts ld v h s :
  lib_opened ld v h ->
  let tr := load_events ld v ++ resolve_events ld v h ++ tail_events ld v h s in
  load_count tr = 1%nat /\ unload_count tr = 1%nat /\
  call_count tr = call_count (tail_events ld v h s) /\
  shutdown_count tr = shutdown_count (tail_events ld v h s).
Proof.
  intros Ho tr. subst tr.
  destruct (load_events_counts ld v h Ho) as (L1 & L2 & L3 & L4).
  destruct (resolve_events_counts ld v h) as (R1 & R2 & R3 & R4).
  destruct (tail_events_counts ld v h s) as (T1 & T2 & _ & _).
  unfold load_count, unload_count, call_count, shutdown_count in *.
  rewrite !count_events_app, L1, L2, L3, L4, R1, R2, R3, R4, T1, T2.
  auto.
Qed.

(** Every exit ends by unloading the handle. *)
Lemma tail_events_end ld v h s :
  exists pre, tail_events ld v h s = pre ++ [EvUnload h].
Proof.
  destruct s; cbn.
  - now exists [].
  - now exists [ev_init ld v h].
  - now exists [ev_init ld v h; ev_device ld v h; ev_shutdown ld v h].
  - now exists [ev_init ld v h; ev_device ld v h; ev_memory ld v h; ev_shutdown ld v h].
  - now exists [ev_init ld v h; ev_device ld v h; ev_memory ld v h; ev_shutdown ld v h].
Qed.

(** Membership in the trace of a probe, step by step. *)
Lemma in_load_events ld v e :
  In e (load_events ld v) -> exists name h, e = EvLoad name h /\
    (name = primary v /\ h = lib_open ld (primary v) \/
     name = secondary v /\ h = lib_open ld (secondary v) /\ lib_open ld (primary v) = 0).
Proof.
  unfold load_events. destruct (is_null _) eqn:Hn; cbn; intros H.
  - apply is_null_true in Hn. destruct H as [<-|[<-|[]]]; eauto 8.
  - destruct H as [<-|[]]; eauto 8.
Qed.

Lemma in_resolve_events ld v h e :
  In e (resolve_events ld v h) -> exists f, e = EvResolve h (symbol v f) (fptr ld v h f).
Proof.
  unfold resolve_events. rewrite in_map_iff. intros (f & <- & _). eauto.
Qed.

Lemma in_probe_events ld v h s e :
  In e (load_events ld v ++ resolve_events ld v h ++ tail_events ld v h s) ->
  (exists name h', e = EvLoad name h') \/
  (exists f, e = EvResolve h (symbol v f) (fptr ld v h f)) \/
  In e (tail_events ld v h s).
Proof.
  rewrite !in_app_iff. intros [H|[H|H]]; auto.
  - apply in_load_events in H. destruct H as (name & h' & -> & _). eauto.
  - apply in_resolve_events in H. auto.
Qed.

(** The full trace from an empty one, whichever way the probe goes. *)
Lemma probe_run_cases bits ld v :
  (lib_open ld (primary v) = 0 /\ lib_open ld (secondary v) = 0 /\
   getVRAMSize bits ld v [] = (0, [EvLoad (primary v) 0; EvLoad (secondary v) 0])) \/
  (exists h s, lib_opened ld v h /\ exits_at ld v h s /\
   getVRAMSize bits ld v [] =
   (exit_value ld v h bits s,
    load_events ld v ++ resolve_events ld v h ++ tail_events ld v h s)).
Proof.
  destruct (library_cases ld v) as [[H1 H2] | [h Ho]].
  - left. rewrite (probe_no_library bits ld v [] H1 H2).
    rewrite (load_events_no_library ld v H1 H2). auto.
  - right. destruct (exit_exists ld v h) as [s Hs].
    exists h, s. rewrite (probe_trace bits ld v h s [] Ho Hs). auto.
Qed.

Lemma probe_frame bits ld v tr :
  getVRAMSize bits ld v tr =
  (fst (getVRAMSize bits ld v []), tr ++ snd (getVRAMSize bits ld v [])).
Proof.
  destruct (library_cases ld v) as [[H1 H2] | [h Ho]].
  - now rewrite !(probe_no_library bits ld v _ H1 H2).
  - destruct (exit_exists ld v h) as [s Hs].
    now rewrite !(probe_trace bits ld v h s _ Ho Hs).
Qed.

(** An [EvLoad] with a handle in the trace means that handle was opened. *)
Lemma loaded_opened ld v name h :
  In (EvLoad name h) (load_events ld v) -> h <> 0 -> lib_opened ld v h.
Proof.
  intros Hin Hh. apply in_load_events in Hin.
  destruct Hin as (n & h' & E & Hc). injection E as -> ->.
  split; [assumption|].
  destruct Hc as [[_ ->] | (_ & -> & H0)]; auto.
Qed.

Lemma in_tail_not_load ld v h s name h' :
  ~ In (EvLoad name h') (resolve_events ld v h ++ tail_events ld v h s).
Proof.
  rewrite in_app_iff. intros [H|H].
  - apply in_resolve_events in H. destruct H as [f H]. discriminate.
  - destruct s; cbn in H; intuition discriminate.
Qed.

(** A vendor call in the trace: which one it is, and that it was reached. *)
Lemma in_tail_call ld v h s f p args st :
  exits_at ld v h s ->
  In (EvCall f p args st) (tail_events ld v h s) ->
  resolved ld v h /\ p = fptr ld v h f /\
  (f = FInit -> st = init_status ld v h /\ s <> AtResolve) /\
  (f = FMemory -> args = memory_args ld v h) /\
  (s = AtInit -> f = FInit).
Proof.
  intros Hs Hin.
  destruct s; cbn [tail_events In] in Hin; cbn [exits_at] in Hs;
    unfold ev_init, ev_device, ev_memory, ev_shutdown in Hin.
  - destruct Hin as [Hin|[]]; discriminate.
  - destruct Hs as [Hr _].
    destruct Hin as [Hin|[Hin|[]]]; try discriminate.
    injection Hin as <- <- <- <-. repeat split; auto; discriminate.
  - destruct Hs as [Hr _].
    destruct Hin as [Hin|[Hin|[Hin|[Hin|[]]]]]; try discriminate;
      injection Hin as <- <- <- <-; repeat split; auto; discriminate.
  - destruct Hs as [Hr _].
    destruct Hin as [Hin|[Hin|[Hin|[Hin|[Hin|[]]]]]]; try discriminate;
      injection Hin as <- <- <- <-; repeat split; auto; discriminate.
  - destruct Hs as [Hr _].
    destruct Hin as [Hin|[Hin|[Hin|[Hin|[Hin|[]]]]]]; try discriminate;
      injection Hin as <- <- <- <-; repeat split; auto; discriminate.
Qed.

Lemma in_probe_call ld v h s f p args st :
  In (EvCall f p args st)
     (load_events ld v ++ resolve_events ld v h ++ tail_events ld v h s) ->
  In (EvCall f p args st) (tail_events ld v h s).
Proof.
  intros H. apply in_probe_events in H.
  destruct H as [(n & h' & H) | [(f' & H) | H]]; try discriminate. assumption.
Qed.

(** Once init has succeeded, every exit shuts the vendor API down and then
    unloads. *)
Lemma tail_events_shutdown ld v h s :
  exits_at ld v h s -> init_status ld v h = success v ->
  (exists f, fptr ld v h f = 0) \/
  (shutdown_count (tail_events ld v h s) = 1%nat /\
   exists pre, tail_events ld v h s = pre ++ [ev_shutdown ld v h; EvUnload h]).
Proof.
  intros Hs Hi. destruct s; cbn [exits_at] in Hs.
  - now left.
  - destruct Hs as [_ Hs]. contradiction.
  - right. split; [reflexivity|].
    now exists [ev_init ld v h; ev_device ld v h].
  - right. split; [reflexivity|].
    now exists [ev_init ld v h; ev_device ld v h; ev_memory ld v h].
  - right. split; [reflexivity|].
    now exists [ev_init ld v h; ev_device ld v h; ev_memory ld v h].
Qed.

(** C1.  Whatever failure is injected -- neither library name opens, some
    required symbol is missing, init reports a non-success status, device
    enumeration (Windows) or get-by-index (Linux) reports a non-success
    status, enumeration yields zero devices, or the memory-info query
    reports a non-success status -- [getVRAMSize] returns, and what it
    returns is exactly 0.  This holds for both variants and from any
    earlier trace. *)
Theorem getVRAMSize_failure_returns_zero bits ld v tr :
  failure ld v -> exists tr', getVRAMSize bits ld v tr = (0, tr').
Proof.
  intros [H1 H2 | h Ho Hf].
  - rewrite (probe_no_library bits ld v tr H1 H2). eauto.
  - destruct (exit_exists ld v h) as [s Hs].
    rewrite (probe_trace bits ld v h s tr Ho Hs).
    destruct s; cbn [exit_value]; eauto.
    exfalso. exact (failure_at_not_end ld v h Hf Hs).
Qed.

(** C2.  Resource symmetry.  In every run of [getVRAMSize] (either variant)
    in which a library load succeeded with handle [h], there is exactly
    one successful load and exactly one unload, the unload is of [h] and is
    the last thing the function does; and if init was called and reported
    success, shutdown is called exactly once, immediately before that
    unload. *)
Theorem getVRAMSize_resource_symmetry bits ld v name h :
  let tr := snd (getVRAMSize bits ld v []) in
  In (EvLoad name h) tr -> h <> 0 ->
  load_count tr = 1%nat /\ unload_count tr = 1%nat /\
  (exists pre, tr = pre ++ [EvUnload h]) /\
  (forall p args, In (EvCall FInit p args (success v)) tr ->
     shutdown_count tr = 1%nat /\
     exists pre, tr = pre ++ [ev_shutdown ld v h; EvUnload h]).
Proof.
  intros tr Hin Hh. subst tr.
  destruct (probe_run_cases bits ld v) as [(H1 & H2 & E) | (h' & s & Ho & Hs & E)];
    rewrite E in *; cbn [snd] in *.
  - destruct Hin as [Hin|[Hin|[]]]; injection Hin as _ Hz; congruence.
  - assert (h' = h) as ->.
    { apply in_app_iff in Hin. destruct Hin as [Hin|Hin].
      - apply (lib_opened_unique ld v _ _ Ho). eapply loaded_opened; eauto.
      - exfalso. revert Hin. apply in_tail_not_load. }
    destruct (probe_counts ld v h s Ho) as (C1 & C2 & C3 & C4).
    repeat split; auto.
    + destruct (tail_events_end ld v h s) as [pre ->].
      exists (load_events ld v ++ resolve_events ld v h ++ pre).
      now rewrite <- !app_assoc.
    + apply in_probe_call in H.
      destruct (in_tail_call ld v h s _ _ _ _ Hs H) as (Hr & _ & Hi & _).
      destruct (Hi eq_refl) as [Hi' _].
      destruct (tail_events_shutdown ld v h s Hs (eq_sym Hi')) as [[f Hf] | [Hc _]].
      * destruct (Hr f Hf).
      * now rewrite C4.
    + apply in_probe_call in H.
      destruct (in_tail_call ld v h s _ _ _ _ Hs H) as (Hr & _ & Hi & _).
      destruct (Hi eq_refl) as [Hi' _].
      destruct (tail_events_shutdown ld v h s Hs (eq_sym Hi')) as [[f Hf] | [_ [pre E']]].
      * destruct (Hr f Hf).
      * rewrite E'. exists (load_events ld v ++ resolve_events ld v h ++ pre).
        now rewrite <- !app_assoc.
Qed.

Lemma probe_end_with_unload ld v h s :
  exists pre,
    load_events ld v ++ resolve_events ld v h ++ tail_events ld v h s =
    pre ++ [EvUnload h].
Proof.
  destruct (tail_events_end ld v h s) as [pre ->].
  exists (load_events ld v ++ resolve_events ld v h ++ pre).
  now rewrite <- !app_assoc.
Qed.


(** C4.  If init reports a non-success status, [getVRAMSize] returns 0,
    unloads the library exactly once, right after the init call, and never
    calls shutdown. *)
Theorem getVRAMSize_init_failure bits ld v h :
  lib_opened ld v h -> resolved ld v h -> init_status ld v h <> success v ->
  let tr := snd (getVRAMSize bits ld v []) in
  fst (getVRAMSize bits ld v []) = 0 /\
  unload_count tr = 1%nat /\ shutdown_count tr = 0%nat /\
  exists pre, tr = pre ++ [ev_init ld v h; EvUnload h].
Proof.
  intros Ho Hr Hi tr. subst tr.
  assert (Hs : exits_at ld v h AtInit) by (split; assumption).
  rewrite (probe_trace bits ld v h AtInit [] Ho Hs). cbn [fst snd app exit_value].
  destruct (probe_counts ld v h AtInit Ho) as (_ & C2 & _ & C4).
  repeat split; auto.
  exists (load_events ld v ++ resolve_events ld v h).
  now rewrite <- !app_assoc.
Qed.

(** C5.  Symbol-resolution completeness.  A vendor function is called
    only in a run where a library was opened and all four required
    symbols resolved to non-null pointers, and it is called through the
    pointer resolved for it; if any required symbol is null,
    [getVRAMSize] returns 0, calls no vendor function and unloads the
    library exactly once, as its last event. *)
Theorem getVRAMSize_symbol_completeness bits ld v :
  let tr := snd (getVRAMSize bits ld v []) in
  (forall f p args st, In (EvCall f p args st) tr ->
     exists h, lib_opened ld v h /\ resolved ld v h /\ p = fptr ld v h f) /\
  (forall h f, lib_opened ld v h -> fptr ld v h f = 0 ->
     fst (getVRAMSize bits ld v []) = 0 /\
     call_count tr = 0%nat /\ unload_count tr = 1%nat /\
     exists pre, tr = pre ++ [EvUnload h]).
Proof.
  intros tr. subst tr. split.
  - intros f p args st Hin.
    destruct (probe_run_cases bits ld v) as [(H1 & H2 & E) | (h & s & Ho & Hs & E)];
      rewrite E in Hin; cbn [snd] in Hin.
    + destruct Hin as [Hin|[Hin|[]]]; discriminate.
    + apply in_probe_call in Hin.
      destruct (in_tail_call ld v h s _ _ _ _ Hs Hin) as (Hr & Hp & _).
      exists h. auto.
  - intros h f Ho Hf.
    assert (Hs : exits_at ld v h AtResolve) by (exists f; exact Hf).
    rewrite (probe_trace bits ld v h AtResolve [] Ho Hs). cbn [fst snd app exit_value].
    destruct (probe_counts ld v h AtResolve Ho) as (_ & C2 & C3 & _).
    repeat split; auto.
    apply probe_end_with_unload.
Qed.


(** C7.  Every memory-info query of the Windows variant is passed a record
    whose version field holds 0x10028, while the Linux variant passes the
    device only, its record having no version field; and if the query
    reports a non-success status the function calls shutdown, unloads the
    library and returns 0. *)
Theorem getVRAMSize_memory_query bits ld v :
  let tr := snd (getVRAMSize bits ld v []) in
  (forall p args st, In (EvCall FMemory p args st) tr ->
     exists dev,
       args = match v with
              | Windows _ => [dev; 0x10028]
              | Linux _ => [dev]
              end) /\
  (forall h, lib_opened ld v h -> resolved ld v h ->
     init_status ld v h = success v ->
     device_status ld v h = success v -> ~ no_device ld v h ->
     memory_status ld v h <> success v ->
     fst (getVRAMSize bits ld v []) = 0 /\
     exists pre, tr = pre ++ [ev_memory ld v h; ev_shutdown ld v h; EvUnload h]).
Proof.
  intros tr. subst tr. split.
  - intros p args st Hin.
    destruct (probe_run_cases bits ld v) as [(H1 & H2 & E) | (h & s & Ho & Hs & E)];
      rewrite E in Hin; cbn [snd] in Hin.
    + destruct Hin as [Hin|[Hin|[]]]; discriminate.
    + apply in_probe_call in Hin.
      destruct (in_tail_call ld v h s _ _ _ _ Hs Hin) as (_ & _ & _ & Ha & _).
      rewrite (Ha eq_refl). exists (device ld v h).
      destruct v; reflexivity.
  - intros h Ho Hr Hi Hd Hn Hm.
    assert (Hs : exits_at ld v h AtQuery) by (cbn; auto).
    rewrite (probe_trace bits ld v h AtQuery [] Ho Hs). cbn [fst snd app exit_value].
    split; [reflexivity|].
    exists (load_events ld v ++ resolve_events ld v h ++ [ev_init ld v h; ev_device ld v h]).
    now rewrite <- !app_assoc.
Qed.

(** C8.  No cross-call state.  Two calls in sequence under the same
    environment return the same value, and the second call performs the
    same events over again, loads and unloads included. *)
Theorem getVRAMSize_no_cross_call_state bits ld v tr0 :
  let run1 := getVRAMSize bits ld v tr0 in
  let run2 := getVRAMSize bits ld v (snd run1) in
  fst run2 = fst run1 /\
  exists evs,
    snd run1 = tr0 ++ evs /\ snd run2 = snd run1 ++ evs /\
    load_count evs = unload_count evs.
Proof.
  intros run1 run2. subst run1 run2.
  rewrite (probe_frame bits ld v (snd _)).
  rewrite (probe_frame bits ld v tr0). cbn [fst snd].
  split; [reflexivity|].
  exists (snd (getVRAMSize bits ld v [])). repeat split.
  destruct (probe_run_cases bits ld v) as [(H1 & H2 & E) | (h & s & Ho & Hs & E)];
    rewrite E; cbn [snd].
  - reflexivity.
  - destruct (probe_counts ld v h s Ho) as (C1 & C2 & _). congruence.
Qed.

(** ** The log forwarder *)

Lemma ceil_div_lt (k L : nat) :
  (k < Asl.ceil_div L 1000 <-> 1000 * k < L)%nat.
Proof.
  unfold Asl.ceil_div. split; intros H.
  - destruct (Nat.lt_ge_cases (1000 * k) L) as [|Hge]; [assumption|exfalso].
    assert ((L + (1000 - 1)) / 1000 < k + 1)%nat.
    { apply Nat.Div0.div_lt_upper_bound. lia. }
    lia.
  - assert (k + 1 <= (L + (1000 - 1)) / 1000)%nat.
    { apply Nat.div_le_lower_bound; lia. }
    lia.
Qed.

Lemma ceil_div_le (L : nat) : (Asl.ceil_div L 1000 <= L)%nat.
Proof.
  destruct (Nat.le_gt_cases (Asl.ceil_div L 1000) L) as [|H]; [assumption|].
  apply ceil_div_lt in H. lia.
Qed.

Lemma logged_app out1 out2 :
  Asl.logged (out1 ++ out2) = Asl.logged out1 ++ Asl.logged out2.
Proof.
  induction out1 as [|c out1 IH]; [reflexivity|].
  destruct c; cbn [Asl.logged app]; now rewrite IH.
Qed.

Lemma logged_logs st level (texts : list Asl.cstring) :
  Asl.logged (map (Asl.AslLog (Asl.asl st) (Asl.log_msg st) level) texts) = texts.
Proof.
  induction texts as [|t texts IH]; [reflexivity|].
  cbn [map Asl.logged]. now rewrite IH.
Qed.

Section SplitLoop.
Variable st : Asl.statics.
Variable level : Z.
Variable message : Asl.cstring.

Let L := List.length message.
Let n := Asl.ceil_div L 1000.
Let log (i : nat) : Asl.call :=
  Asl.AslLog (Asl.asl st) (Asl.log_msg st) level (Asl.log_text message i).

Hypothesis in_range : Z.of_nat L <= Asl.max_len.

Lemma pos_as_size_t (k : nat) :
  (k <= n)%nat -> to_size_t Asl.size_t_bits (Z.of_nat (1000 * k)) = Z.of_nat (1000 * k).
Proof.
  intros Hk. unfold to_size_t. apply Z.mod_small.
  pose proof (ceil_div_le L). fold n in H.
  unfold Asl.max_len in in_range.
  change (2 ^ Asl.size_t_bits) with 18446744073709551616. lia.
Qed.

(** One iteration of the loop, at [pos = 1000 * k < len]. *)
Lemma split_loop_step (fuel k : nat) (out : list Asl.call) :
  (k < n)%nat ->
  Asl.split_loop (S fuel) st level message (Z.of_nat L) (Z.of_nat (1000 * k)) out =
  Asl.split_loop fuel st level message (Z.of_nat L) (Z.of_nat (1000 * (k + 1)))
                 (out ++ [log k]).
Proof.
  intros Hk. pose proof Hk as Hlt. apply ceil_div_lt in Hlt. fold L in Hlt.
  unfold Asl.max_len in in_range.
  cbn [Asl.split_loop].
  rewrite pos_as_size_t by lia.
  destruct (Z.ltb_spec (Z.of_nat (1000 * k)) (Z.of_nat L)) as [_|]; [|lia].
  unfold Asl.add_int, Asl.step, Asl.INT_MIN, Asl.INT_MAX.
  destruct (Z.leb_spec (-2147483648) (Z.of_nat (1000 * k) + 1000)); [|lia].
  destruct (Z.leb_spec (Z.of_nat (1000 * k) + 1000) 2147483647); [|lia].
  cbn [andb].
  replace (Z.of_nat (1000 * k) + 1000) with (Z.of_nat (1000 * (k + 1))) by lia.
  rewrite pos_as_size_t by lia.
  f_equal. f_equal. f_equal. unfold log. f_equal.
  unfold Asl.log_text, Asl.fmt_s, Asl.fmt_prec_s, Asl.advance.
  rewrite Nat2Z.id. change (Z.to_nat 1000) with 1000%nat.
  f_equal; [|f_equal].
  - destruct (Z.eqb_spec (Z.of_nat (1000 * k)) 0), (Nat.eqb_spec k 0);
      try reflexivity; lia.
  - destruct (Z.ltb_spec (Z.of_nat (1000 * (k + 1))) (Z.of_nat L)),
             (Nat.ltb_spec (1000 * (k + 1)) (List.length message));
      try reflexivity; unfold L in *; lia.
Qed.

(** The whole loop from [pos = 1000 * k]: it ends, and logs the remaining
    texts in order. *)
Lemma split_loop_run (fuel k : nat) (out : list Asl.call) :
  (k <= n)%nat -> (n - k < fuel)%nat ->
  Asl.split_loop fuel st level message (Z.of_nat L) (Z.of_nat (1000 * k)) out =
  Asl.Done (out ++ map log (seq k (n - k))).
Proof.
  revert k out. induction fuel as [|fuel IH]; intros k out Hk Hf; [lia|].
  destruct (Nat.eq_dec k n) as [->|Hne].
  - rewrite Nat.sub_diag. cbn [seq map]. rewrite app_nil_r.
    cbn [Asl.split_loop]. rewrite pos_as_size_t by lia.
    destruct (Z.ltb_spec (Z.of_nat (1000 * n)) (Z.of_nat L)) as [Hlt|]; [|reflexivity].
    assert (n < n)%nat by (apply ceil_div_lt; fold L; lia). lia.
  - rewrite split_loop_step by lia.
    rewrite IH by lia.
    replace (n - k)%nat with (S (n - (k + 1))) by lia.
    cbn [seq map]. rewrite <- app_assoc. cbn [app].
    now replace (S k) with (k + 1)%nat by lia.
Qed.

End SplitLoop.

(** An iteration whose [pos + step] does not fit in an [int] has no
    defined behaviour; the first such [pos] is reached by messages longer
    than [max_len]. *)
Lemma split_loop_overflow st level message len pos fuel out :
  0 <= pos <= Asl.INT_MAX -> pos < len -> Asl.INT_MAX < pos + Asl.step ->
  Asl.split_loop (S fuel) st level message len pos out = Asl.Undefined.
Proof.
  intros Hp Hlt Hov. cbn [Asl.split_loop].
  unfold to_size_t. rewrite Z.mod_small.
  2:{ unfold Asl.INT_MAX in Hp.
      change (2 ^ Asl.size_t_bits) with 18446744073709551616. lia. }
  destruct (Z.ltb_spec pos len); [|lia].
  unfold Asl.add_int.
  destruct (Z.leb_spec (pos + Asl.step) Asl.INT_MAX); [lia|].
  now rewrite andb_false_r.
Qed.

(** The part of the function after the statics are set up. *)
Lemma logger_tail level message st out :
  Z.of_nat (List.length message) <= Asl.max_len ->
  (if Asl.strlen message <? 1024
   then Asl.Done (st, out ++ [Asl.AslLog (Asl.asl st) (Asl.log_msg st) level
                                         (Asl.fmt_s message)])
   else match Asl.split_loop (S (List.length message)) st level message
                             (Asl.strlen message) 0 out with
        | Asl.Done out' => Asl.Done (st, out')
        | Asl.Undefined => Asl.Undefined
        | Asl.OutOfFuel => Asl.OutOfFuel
        end) =
  Asl.Done
    (st,
     out ++
     map (Asl.AslLog (Asl.asl st) (Asl.log_msg st) level)
       (if Asl.strlen message <? 1024 then [message]
        else map (Asl.log_text message)
                 (seq 0 (Asl.ceil_div (List.length message) 1000)))).
Proof.
  intros Hlen. destruct (Asl.strlen message <? 1024); [reflexivity|].
  unfold Asl.strlen.
  pose proof (split_loop_run st level message Hlen
                (S (List.length message)) 0 out) as R.
  change (Z.of_nat (1000 * 0)) with 0 in R.
  rewrite Nat.sub_0_r in R.
  rewrite R.
  - now rewrite map_map.
  - lia.
  - pose proof (ceil_div_le (List.length message)). lia.
Qed.

(** The statics and the calls before the first [asl_log]. *)
Lemma logger_run lib level message st out :
  Z.of_nat (List.length message) <= Asl.max_len ->
  exists st' opens,
    Asl.logged opens = [] /\
    Asl.apple_asl_logger_log lib level message (st, out) =
    Asl.Done
      (st',
       out ++ opens ++
       map (Asl.AslLog (Asl.asl st') (Asl.log_msg st') level)
         (if Asl.strlen message <? 1024 then [message]
          else map (Asl.log_text message)
                   (seq 0 (Asl.ceil_div (List.length message) 1000)))).
Proof.
  intros Hlen.
  unfold Asl.apple_asl_logger_log.
  destruct (is_null (Asl.asl st)).
  - eexists _, [Asl.AslOpen "Docker" "com.docker.docker" 0;
                Asl.AslNew (Asl.ASL_TYPE_MSG lib)].
    split; [reflexivity|].
    rewrite logger_tail by assumption.
    rewrite <- !app_assoc. reflexivity.
  - exists st, []. split; [reflexivity|].
    now rewrite logger_tail by assumption.
Qed.

(** The texts one call adds to the log. *)
Lemma logger_texts lib level message w :
  Z.of_nat (List.length message) <= Asl.max_len ->
  exists w',
    Asl.apple_asl_logger_log lib level message w = Asl.Done w' /\
    Asl.logged (snd w') =
    Asl.logged (snd w) ++
    (if Asl.strlen message <? 1024 then [message]
     else map (Asl.log_text message)
              (seq 0 (Asl.ceil_div (List.length message) 1000))).
Proof.
  intros Hlen. destruct w as [st out].
  destruct (logger_run lib level message st out Hlen) as (st' & opens & Ho & E).
  eexists. split; [exact E|].
  cbn [snd]. now rewrite !logged_app, Ho, logged_logs.
Qed.

(** *** Segments *)












(** ** The statements at concrete environments *)

Lemma getVRAMSize_failure_returns_zero_witness :
  failure (mock_loader 0 7 []) (mock_windows 0 0 0 0 0) /\
  exists tr',
    getVRAMSize 64 (mock_loader 0 7 []) (mock_windows 0 0 0 0 0) [] = (0, tr').
Proof.
  assert (F : failure (mock_loader 0 7 []) (mock_windows 0 0 0 0 0)).
  { apply FailureAt with (h := 7).
    - split; [lia | right; split; reflexivity].
    - apply NoDevice. reflexivity. }
  split; [exact F|].
  exact (getVRAMSize_failure_returns_zero 64 _ _ [] F).
Defined.

Lemma getVRAMSize_resource_symmetry_witness :
  In (EvLoad Nvml.primary 7)
     (snd (getVRAMSize 64 (mock_loader 7 0 []) (mock_linux 0 0 0 8589934592) [])) /\
  7 <> 0 /\
  load_count
    (snd (getVRAMSize 64 (mock_loader 7 0 []) (mock_linux 0 0 0 8589934592) [])) = 1%nat /\
  unload_count
    (snd (getVRAMSize 64 (mock_loader 7 0 []) (mock_linux 0 0 0 8589934592) [])) = 1%nat /\
  shutdown_count
    (snd (getVRAMSize 64 (mock_loader 7 0 []) (mock_linux 0 0 0 8589934592) [])) = 1%nat.
Proof.
  assert (Hin : In (EvLoad Nvml.primary 7)
     (snd (getVRAMSize 64 (mock_loader 7 0 []) (mock_linux 0 0 0 8589934592) []))).
  { vm_compute. left. reflexivity. }
  assert (Hne : 7 <> 0) by lia.
  destruct (getVRAMSize_resource_symmetry 64 (mock_loader 7 0 [])
              (mock_linux 0 0 0 8589934592) Nvml.primary 7 Hin Hne)
    as (A & B & _ & D).
  assert (Hinit : In (EvCall FInit 15 [] (success (mock_linux 0 0 0 8589934592)))
     (snd (getVRAMSize 64 (mock_loader 7 0 []) (mock_linux 0 0 0 8589934592) []))).
  { vm_compute. do 5 right. left. reflexivity. }
  destruct (D 15 [] Hinit) as [E _].
  repeat split; assumption.
Defined.


Lemma getVRAMSize_init_failure_witness :
  init_status (mock_loader 7 0 []) (mock_linux 1 0 0 0) 7 <> success (mock_linux 1 0 0 0) /\
  fst (getVRAMSize 64 (mock_loader 7 0 []) (mock_linux 1 0 0 0) []) = 0 /\
  unload_count (snd (getVRAMSize 64 (mock_loader 7 0 []) (mock_linux 1 0 0 0) [])) = 1%nat /\
  shutdown_count (snd (getVRAMSize 64 (mock_loader 7 0 []) (mock_linux 1 0 0 0) [])) = 0%nat.
Proof.
  assert (Ho : lib_opened (mock_loader 7 0 []) (mock_linux 1 0 0 0) 7).
  { split; [lia | left; reflexivity]. }
  assert (Hr : resolved (mock_loader 7 0 []) (mock_linux 1 0 0 0) 7).
  { intros []; vm_compute; discriminate. }
  assert (Hi : init_status (mock_loader 7 0 []) (mock_linux 1 0 0 0) 7
               <> success (mock_linux 1 0 0 0)).
  { vm_compute. discriminate. }
  destruct (getVRAMSize_init_failure 64 _ _ 7 Ho Hr Hi) as (A & B & C & _).
  repeat split; assumption.
Defined.

Lemma getVRAMSize_symbol_completeness_witness :
  fptr (mock_loader 7 0 ["NvAPI_Unload"%string]) (mock_windows 0 0 1 0 8388608) 7 FShutdown = 0 /\
  fst (getVRAMSize 64 (mock_loader 7 0 ["NvAPI_Unload"%string])
         (mock_windows 0 0 1 0 8388608) []) = 0 /\
  call_count (snd (getVRAMSize 64 (mock_loader 7 0 ["NvAPI_Unload"%string])
                     (mock_windows 0 0 1 0 8388608) [])) = 0%nat.
Proof.
  assert (Ho : lib_opened (mock_loader 7 0 ["NvAPI_Unload"%string])
                 (mock_windows 0 0 1 0 8388608) 7).
  { split; [lia | left; reflexivity]. }
  assert (Hf : fptr (mock_loader 7 0 ["NvAPI_Unload"%string])
                 (mock_windows 0 0 1 0 8388608) 7 FShutdown = 0) by reflexivity.
  destruct (proj2 (getVRAMSize_symbol_completeness 64
                     (mock_loader 7 0 ["NvAPI_Unload"%string])
                     (mock_windows 0 0 1 0 8388608)) 7 FShutdown Ho Hf)
    as (A & B & _).
  repeat split; assumption.
Defined.



Lemma getVRAMSize_memory_query_witness :
  memory_status (mock_loader 7 0 []) (mock_windows 0 0 1 1 0) 7
    <> success (mock_windows 0 0 1 1 0) /\
  fst (getVRAMSize 64 (mock_loader 7 0 []) (mock_windows 0 0 1 1 0) []) = 0 /\
  exists dev, [42; 65576] = [dev; 0x10028].
Proof.
  assert (Ho : lib_opened (mock_loader 7 0 []) (mock_windows 0 0 1 1 0) 7).
  { split; [lia | left; reflexivity]. }
  assert (Hr : resolved (mock_loader 7 0 []) (mock_windows 0 0 1 1 0) 7).
  { intros []; vm_compute; discriminate. }
  assert (Hn : ~ no_device (mock_loader 7 0 []) (mock_windows 0 0 1 1 0) 7).
  { vm_compute. discriminate. }
  assert (Hm : memory_status (mock_loader 7 0 []) (mock_windows 0 0 1 1 0) 7
               <> success (mock_windows 0 0 1 1 0)).
  { vm_compute. discriminate. }
  destruct (proj2 (getVRAMSize_memory_query 64 (mock_loader 7 0 [])
                     (mock_windows 0 0 1 1 0)) 7 Ho Hr eq_refl eq_refl Hn Hm)
    as (A & _).
  assert (Hin : In (EvCall FMemory 30 [42; 65576] 1)
     (snd (getVRAMSize 64 (mock_loader 7 0 []) (mock_windows 0 0 1 1 0) []))).
  { vm_compute. do 7 right. left. reflexivity. }
  split; [exact Hm|]. split; [exact A|].
  exact (proj1 (getVRAMSize_memory_query 64 (mock_loader 7 0 [])
                  (mock_windows 0 0 1 1 0)) 30 [42; 65576] 1 Hin).
Defined.



(** On a target with a 32-bit [size_t] the product wraps: 8388608 KB come
    back as 0. *)
Remark getVRAMSize_size_t_32 :
  fst (getVRAMSize 32 (mock_loader 7 0 []) (mock_windows 0 0 1 0 8388608) []) = 0.
Proof. reflexivity. Qed.

(** * Further properties of the probers *)

(** X1.  A non-zero result is never a failure: if [getVRAMSize] returns a
    non-zero value then a library was opened, all four symbols resolved,
    and init, the device step and the memory query all reported success;
    the value is the one computed from the vendor's counter. *)
Theorem getVRAMSize_nonzero_success bits ld v tr :
  fst (getVRAMSize bits ld v tr) <> 0 ->
  exists h, probe_succeeds ld v h /\
            fst (getVRAMSize bits ld v tr) = returned_value ld v h bits.
Proof.
  rewrite probe_frame. cbn [fst]. intros Hnz.
  destruct (probe_run_cases bits ld v) as [(_ & _ & E) | (h & s & Ho & Hs & E)];
    rewrite E in *; cbn [fst] in *.
  - contradiction.
  - destruct s; cbn [exit_value] in *; try contradiction.
    exists h. split; [|reflexivity]. split; assumption.
Qed.

(** The two names of a variant differ. *)
Lemma primary_not_secondary v : String.eqb (primary v) (secondary v) = false.
Proof. destruct v; reflexivity. Qed.

(** X2.  When the primary name opens, the secondary name is never tried:
    the only load attempt in the trace is that of the primary name, and
    the result and the whole trace are the same whatever the secondary
    name would have opened as. *)
Theorem getVRAMSize_primary_only bits ld v h2 tr :
  lib_open ld (primary v) <> 0 ->
  getVRAMSize bits (with_open ld (secondary v) h2) v tr = getVRAMSize bits ld v tr /\
  filter is_load (snd (getVRAMSize bits ld v [])) =
    [EvLoad (primary v) (lib_open ld (primary v))].
Proof.
  intros Hp.
  set (h := lib_open ld (primary v)).
  assert (Ho : lib_opened ld v h) by (split; [exact Hp | now left]).
  assert (Ho' : lib_opened (with_open ld (secondary v) h2) v h).
  { split; [exact Hp | left]. cbn. now rewrite primary_not_secondary. }
  destruct (exit_exists ld v h) as [s Hs].
  assert (El : load_events ld v = [EvLoad (primary v) h]).
  { unfold load_events. fold h. apply is_null_false in Hp. fold h in Hp.
    now rewrite Hp. }
  assert (El' : load_events (with_open ld (secondary v) h2) v = [EvLoad (primary v) h]).
  { unfold load_events. cbn. rewrite primary_not_secondary. fold h.
    apply is_null_false in Hp. fold h in Hp. now rewrite Hp. }
  split.
  - rewrite (probe_trace bits ld v h s tr Ho Hs).
    rewrite (probe_trace bits (with_open ld (secondary v) h2) v h s tr Ho' Hs).
    now rewrite El, El'.
  - rewrite (probe_trace bits ld v h s [] Ho Hs). cbn [snd app].
    rewrite El, !filter_app.
    replace (filter is_load (resolve_events ld v h)) with (@nil event)
      by (destruct v; reflexivity).
    replace (filter is_load (tail_events ld v h s)) with (@nil event)
      by (destruct s; reflexivity).
    reflexivity.
Qed.

(** X3.  Whenever a library is opened, all four symbols are looked up in
    it, in the order of the source, before any of them is tested: a
    missing symbol does not cut the lookups short. *)
Theorem getVRAMSize_resolves_all bits ld v h :
  lib_opened ld v h ->
  filter is_resolve (snd (getVRAMSize bits ld v [])) =
  map (fun f => EvResolve h (symbol v f) (lib_sym ld h (symbol v f)))
      (resolution_order v).
Proof.
  intros Ho. destruct (exit_exists ld v h) as [s Hs].
  rewrite (probe_trace bits ld v h s [] Ho Hs). cbn [snd app].
  rewrite !filter_app.
  replace (filter is_resolve (load_events ld v)) with (@nil event).
  2:{ unfold load_events. destruct (is_null _); reflexivity. }
  replace (filter is_resolve (tail_events ld v h s)) with (@nil event)
    by (destruct s; reflexivity).
  rewrite app_nil_r. cbn [app].
  destruct v; reflexivity.
Qed.

(** X4.  The status returned by shutdown is ignored: with a vendor
    library that differs only in what shutdown answers, [getVRAMSize]
    returns the same value and calls the same vendor functions. *)
Theorem getVRAMSize_ignores_shutdown_status bits ld v st tr :
  fst (getVRAMSize bits ld (with_shutdown v st) tr) = fst (getVRAMSize bits ld v tr) /\
  called (snd (getVRAMSize bits ld (with_shutdown v st) [])) =
  called (snd (getVRAMSize bits ld v [])).
Proof.
  assert (Hc : forall ld v h s, called (load_events ld v ++ resolve_events ld v h
                                        ++ tail_events ld v h s)
               = called (tail_events ld v h s)).
  { intros ld0 v0 h0 s0. unfold load_events.
    destruct (is_null _); destruct v0; reflexivity. }
  destruct (library_cases ld v) as [[H1 H2] | [h Ho]].
  - assert (H1' : lib_open ld (primary (with_shutdown v st)) = 0) by (destruct v; exact H1).
    assert (H2' : lib_open ld (secondary (with_shutdown v st)) = 0) by (destruct v; exact H2).
    rewrite !(probe_no_library bits ld v _ H1 H2).
    rewrite !(probe_no_library bits ld _ _ H1' H2').
    split; [reflexivity|]. cbn [snd app]. unfold load_events.
    destruct v; cbn [primary secondary with_shutdown]; reflexivity.
  - destruct (exit_exists ld v h) as [s Hs].
    assert (Ho' : lib_opened ld (with_shutdown v st) h) by (destruct v; exact Ho).
    assert (Hs' : exits_at ld (with_shutdown v st) h s) by (destruct v, s; exact Hs).
    rewrite !(probe_trace bits ld v h s _ Ho Hs).
    rewrite !(probe_trace bits ld _ h s _ Ho' Hs').
    cbn [fst snd app]. rewrite !Hc.
    split; [destruct v, s; reflexivity | destruct v, s; reflexivity].
Qed.

(** X5.  The vendor functions called in one run are, in order, one of:
    none; init; init, device, shutdown; init, device, memory query,
    shutdown.  So each is called at most once, nothing is called before
    init, and shutdown is called exactly when the device step was
    reached. *)
Theorem getVRAMSize_call_order bits ld v :
  In (called (snd (getVRAMSize bits ld v [])))
     [ [];
       [FInit];
       [FInit; FDevice; FShutdown];
       [FInit; FDevice; FMemory; FShutdown] ].
Proof.
  destruct (probe_run_cases bits ld v) as [(_ & _ & E) | (h & s & Ho & Hs & E)];
    rewrite E; cbn [snd].
  - cbn. auto.
  - replace (called (load_events ld v ++ resolve_events ld v h ++ tail_events ld v h s))
      with (called (tail_events ld v h s)).
    + destruct s; cbn; auto.
    + unfold load_events. destruct (is_null _); destruct v; reflexivity.
Qed.

(** X6.  Only the first device is probed: the Linux variant asks for the
    device of index 0 (the Windows enumeration takes no input), and the
    memory query is made on [handles[0]] (Windows) or on the device that
    get-by-index returned (Linux). *)
Theorem getVRAMSize_first_device bits ld v h p args st :
  lib_opened ld v h ->
  (In (EvCall FDevice p args st) (snd (getVRAMSize bits ld v [])) ->
   args = match v with Windows _ => [] | Linux _ => [0] end) /\
  (In (EvCall FMemory p args st) (snd (getVRAMSize bits ld v [])) ->
   hd 0 args =
   match v with
   | Windows api =>
       nth 0 (snd (fst (Nvapi.nv_EnumPhysicalGPUs api (fptr ld v h FDevice)))) 0
   | Linux api =>
       snd (Nvml.nvml_DeviceGetHandleByIndex api (fptr ld v h FDevice) 0)
   end).
Proof.
  intros Ho. destruct (exit_exists ld v h) as [s Hs].
  rewrite (probe_trace bits ld v h s [] Ho Hs). cbn [snd app].
  split; intros Hin; apply in_probe_call in Hin.
  - destruct s; cbn [tail_events In] in Hin;
      unfold ev_init, ev_device, ev_memory, ev_shutdown in Hin;
      repeat (destruct Hin as [Hin|Hin]; try discriminate; try contradiction);
      injection Hin as _ <- _; destruct v; reflexivity.
  - destruct (in_tail_call ld v h s _ _ _ _ Hs Hin) as (_ & _ & _ & Ha & _).
    rewrite (Ha eq_refl). destruct v; reflexivity.
Qed.

(** X7.  The result always fits [size_t]: it lies in [0, 2^bits); and for
    a [size_t] of at least 10 bits the Windows result is a whole number of
    kilobytes (a multiple of 1024), on every path. *)
Theorem getVRAMSize_result_range bits ld v tr :
  0 <= bits ->
  0 <= fst (getVRAMSize bits ld v tr) < 2 ^ bits /\
  (10 <= bits ->
   match v with
   | Windows _ => fst (getVRAMSize bits ld v tr) mod 1024 = 0
   | Linux _ => True
   end).
Proof.
  intros Hb. rewrite probe_frame. cbn [fst].
  assert (Hpos : 0 < 2 ^ bits) by (apply Z.pow_pos_nonneg; lia).
  destruct (probe_run_cases bits ld v) as [(_ & _ & E) | (h & s & Ho & Hs & E)];
    rewrite E; cbn [fst].
  - split; [lia|]. intros _. destruct v; [reflexivity | exact I].
  - assert (Hz : 0 mod 1024 = 0) by reflexivity.
    destruct s; cbn [exit_value];
      try (split; [lia | intros _; destruct v; [exact Hz | exact I]]).
    unfold returned_value, to_size_t. split.
    + destruct v; apply Z.mod_pos_bound; exact Hpos.
    + intros H10. destruct v; [|exact I].
      rewrite Z.mul_mod_idemp_l by lia.
      replace bits with (10 + (bits - 10)) by lia.
      rewrite Z.pow_add_r by lia. change (2 ^ 10) with 1024.
      rewrite (Z.mul_comm (vendor_memory _ _ _) 1024).
      rewrite Z.mul_mod_distr_l by lia.
      rewrite Z.mul_comm. apply Z.mod_mul. lia.
Qed.

(** X8.  On full success, for any width of [size_t], the result is the
    vendor's counter in bytes reduced modulo [2^bits]: the Windows cast
    and product lose nothing else. *)
Theorem getVRAMSize_success_modulo bits ld v h tr :
  probe_succeeds ld v h -> 0 <= bits ->
  fst (getVRAMSize bits ld v tr) =
  (vendor_memory ld v h * unit_bytes v) mod 2 ^ bits.
Proof.
  intros (Ho & Hs) Hb. change (exits_at ld v h AtEnd) in Hs.
  rewrite (probe_trace bits ld v h AtEnd tr Ho Hs). cbn [fst exit_value].
  assert (Hpos : 0 < 2 ^ bits) by (apply Z.pow_pos_nonneg; lia).
  unfold returned_value, to_size_t. destruct v; cbn [unit_bytes].
  - rewrite Z.mul_mod_idemp_l by lia. reflexivity.
  - now rewrite Z.mul_1_r.
Qed.

(** * Further properties of the log forwarder *)

Lemma log_text_length m i :
  (List.length (Asl.log_text m i) <= 1012)%nat.
Proof.
  unfold Asl.log_text. rewrite !length_app, length_firstn.
  assert (H1 : (List.length (if (i =? 0)%nat then [] else Asl.continuation_prefix) <= 6)%nat)
    by (destruct (i =? 0)%nat; cbn; lia).
  assert (H2 : (List.length (if (1000 * (i + 1) <? List.length m)%nat
                             then Asl.more_suffix else []) <= 6)%nat)
    by (destruct (1000 * (i + 1) <? List.length m)%nat; cbn; lia).
  lia.
Qed.

(** X9.  No text handed to [asl_log] reaches the 1024 bytes at which
    entries are truncated: every text of a call is shorter than 1024
    bytes, for every message short enough for the [int] loop counter. *)
Theorem apple_asl_logger_log_no_truncation lib level message w :
  Asl.strlen message <= Asl.max_len ->
  exists w' texts,
    Asl.apple_asl_logger_log lib level message w = Asl.Done w' /\
    Asl.logged (snd w') = Asl.logged (snd w) ++ texts /\
    Forall (fun text => Asl.strlen text < 1024) texts.
Proof.
  intros Hlen.
  destruct (logger_texts lib level message w Hlen) as (w' & E & Hl).
  eexists w', _. split; [exact E|]. split; [exact Hl|].
  destruct (Z.ltb_spec (Asl.strlen message) 1024) as [Hs|Hs].
  - constructor; [exact Hs | constructor].
  - apply Forall_forall. intros text Hin. apply in_map_iff in Hin.
    destruct Hin as (i & <- & _). unfold Asl.strlen.
    pose proof (log_text_length message i). lia.
Qed.








(** The loop on a message longer than [max_len]: from [pos = 1000 * k] it
    runs into the overflow at [pos = 2147483000]. *)
Lemma split_loop_undefined st level message len fuel k out :
  Asl.max_len < len -> 0 <= k <= 2147483 -> 2147483 - k < Z.of_nat fuel ->
  Asl.split_loop fuel st level message len (1000 * k) out = Asl.Undefined.
Proof.
  unfold Asl.max_len. revert k out.
  induction fuel as [|fuel IH]; intros k out Hlen Hk Hf; [lia|].
  destruct (Z.eq_dec k 2147483) as [->|Hne].
  - apply split_loop_overflow; unfold Asl.INT_MAX, Asl.step; lia.
  - cbn [Asl.split_loop].
    unfold to_size_t. rewrite Z.mod_small
      by (change (2 ^ Asl.size_t_bits) with 18446744073709551616; lia).
    destruct (Z.ltb_spec (1000 * k) len); [|lia].
    unfold Asl.add_int, Asl.step, Asl.INT_MIN, Asl.INT_MAX.
    destruct (Z.leb_spec (-2147483648) (1000 * k + 1000)); [|lia].
    destruct (Z.leb_spec (1000 * k + 1000) 2147483647); [|lia].
    cbn [andb].
    replace (1000 * k + 1000) with (1000 * (k + 1)) by lia.
    apply IH; lia.
Qed.

(** X12.  For a message longer than 2147483000 bytes the [int] loop
    counter reaches 2147483000 and [pos + step] overflows: the call has no
    defined behaviour, whatever the statics and the level. *)
Theorem apple_asl_logger_log_overflow lib level message w :
  Asl.max_len < Asl.strlen message ->
  Asl.apple_asl_logger_log lib level message w = Asl.Undefined.
Proof.
  intros Hlen. destruct w as [st out]. unfold Asl.apple_asl_logger_log.
  assert (Hs : (Asl.strlen message <? 1024) = false).
  { apply Z.ltb_ge. unfold Asl.max_len in Hlen. lia. }
  assert (Hl : forall st' out',
    Asl.split_loop (S (List.length message)) st' level message
                   (Asl.strlen message) 0 out' = Asl.Undefined).
  { intros st' out'. change 0 with (1000 * 0).
    apply split_loop_undefined; [exact Hlen | lia |].
    unfold Asl.strlen, Asl.max_len in *. lia. }
  destruct (is_null (Asl.asl st)); rewrite Hs, Hl; reflexivity.
Qed.

(** * The diagnostic dump *)

Section Dump.
Variable sdk : NvGpuInfo.Sdk.

(** The loop body only appends. *)
Lemma dump_gpu_app gpus i out :
  NvGpuInfo.dump_gpu sdk gpus i out = out ++ NvGpuInfo.dump_gpu sdk gpus i [].
Proof.
  unfold NvGpuInfo.dump_gpu.
  destruct (NvGpuInfo.NvAPI_GPU_GetFullName sdk _) as [s1 name].
  destruct (NvGpuInfo.NvAPI_GPU_GetPCIIdentifiers sdk _) as [s2 [[[d1 d2] d3] d4]].
  destruct (NvGpuInfo.NvAPI_GPU_GetMemoryInfoEx sdk _ _) as [s3 mem].
  destruct (s1 =? _), (s2 =? _), (s3 =? _); cbn [app];
    rewrite <- ?app_assoc; reflexivity.
Qed.

Lemma dump_gpu_printed gpus i :
  NvGpuInfo.printed (NvGpuInfo.dump_gpu sdk gpus i []) =
  NvGpuInfo.gpu_lines sdk (nth (Z.to_nat i) gpus 0) i.
Proof.
  unfold NvGpuInfo.dump_gpu, NvGpuInfo.gpu_lines.
  destruct (NvGpuInfo.NvAPI_GPU_GetFullName sdk _) as [s1 name].
  destruct (NvGpuInfo.NvAPI_GPU_GetPCIIdentifiers sdk _) as [s2 [[[d1 d2] d3] d4]].
  destruct (NvGpuInfo.NvAPI_GPU_GetMemoryInfoEx sdk _ _) as [s3 mem].
  destruct (s1 =? _), (s2 =? _), (s3 =? _); reflexivity.
Qed.

Lemma dump_gpu_api_calls gpus i :
  NvGpuInfo.api_calls (NvGpuInfo.dump_gpu sdk gpus i []) =
  ["NvAPI_GPU_GetFullName"; "NvAPI_GPU_GetPCIIdentifiers";
   "NvAPI_GPU_GetMemoryInfoEx"]%string.
Proof.
  unfold NvGpuInfo.dump_gpu.
  destruct (NvGpuInfo.NvAPI_GPU_GetFullName sdk _) as [s1 name].
  destruct (NvGpuInfo.NvAPI_GPU_GetPCIIdentifiers sdk _) as [s2 [[[d1 d2] d3] d4]].
  destruct (NvGpuInfo.NvAPI_GPU_GetMemoryInfoEx sdk _ _) as [s3 mem].
  destruct (s1 =? _), (s2 =? _), (s3 =? _); reflexivity.
Qed.

(** The whole loop from GPU number [i]: it ends, having run the body for
    every number from [i] up to the count, in order. *)
Lemma dump_loop_run gpus count fuel (c : nat) i out :
  0 <= i -> count = i + Z.of_nat c -> count < 2 ^ 32 -> (c < fuel)%nat ->
  NvGpuInfo.dump_loop sdk fuel gpus count i out =
  Some (out ++ flat_map (fun k => NvGpuInfo.dump_gpu sdk gpus (Z.of_nat k) [])
                        (seq (Z.to_nat i) c)).
Proof.
  change (2 ^ 32) with 4294967296.
  revert c i out. induction fuel as [|fuel IH]; intros c i out Hi Hc Hr Hf; [lia|].
  cbn [NvGpuInfo.dump_loop].
  destruct c as [|c].
  - destruct (Z.ltb_spec i count); [lia|]. cbn [seq flat_map]. now rewrite app_nil_r.
  - destruct (Z.ltb_spec i count); [|lia].
    assert (Ei : NvGpuInfo.incr_u32 i = i + 1).
    { unfold NvGpuInfo.incr_u32. change (2 ^ 32) with 4294967296.
      apply Z.mod_small. lia. }
    rewrite Ei, (IH c) by lia.
    rewrite dump_gpu_app, <- app_assoc. cbn [seq flat_map].
    rewrite Z2Nat.id by lia.
    replace (Z.to_nat (i + 1)) with (S (Z.to_nat i)) by lia.
    reflexivity.
Qed.

Lemma printed_app out1 out2 :
  NvGpuInfo.printed (out1 ++ out2) = NvGpuInfo.printed out1 ++ NvGpuInfo.printed out2.
Proof. apply filter_app. Qed.

Lemma api_calls_app out1 out2 :
  NvGpuInfo.api_calls (out1 ++ out2) =
  NvGpuInfo.api_calls out1 ++ NvGpuInfo.api_calls out2.
Proof. apply flat_map_app. Qed.

Lemma printed_flat_map (f : nat -> list NvGpuInfo.event) l :
  NvGpuInfo.printed (flat_map f l) = flat_map (fun k => NvGpuInfo.printed (f k)) l.
Proof.
  induction l as [|k l IH]; [reflexivity|].
  cbn [flat_map]. now rewrite printed_app, IH.
Qed.

Lemma api_calls_flat_map (f : nat -> list NvGpuInfo.event) l :
  NvGpuInfo.api_calls (flat_map f l) = flat_map (fun k => NvGpuInfo.api_calls (f k)) l.
Proof.
  induction l as [|k l IH]; [reflexivity|].
  cbn [flat_map]. now rewrite api_calls_app, IH.
Qed.

(** X13.  [main] ends with status 0 or -1, and the status is 0 exactly
    when the three setup calls (initialise, driver version, GPU
    enumeration) all report success: the failure of a per-GPU query never
    changes the exit status. *)
Theorem main_exit_status :
  NvGpuInfo.gpu_count sdk < 2 ^ 32 ->
  exists code out,
    NvGpuInfo.main sdk = Some (code, out) /\
    (code = 0 \/ code = -1) /\
    (code = 0 <-> NvGpuInfo.setup_ok sdk).
Proof.
  unfold NvGpuInfo.setup_ok, NvGpuInfo.gpu_count, NvGpuInfo.enumerated.
  intros Hc. unfold NvGpuInfo.main. cbv zeta.
  destruct (Z.eqb_spec (NvGpuInfo.NvAPI_Initialize sdk) (NvGpuInfo.NVAPI_OK sdk)) as [E1|E1];
    cbn [negb].
  2:{ eexists _, _. split; [reflexivity|]. cbn [fst]. split; [now right|].
      split; [discriminate | tauto]. }
  destruct (NvGpuInfo.NvAPI_SYS_GetDriverAndBranchVersion sdk) as [[s2 ver] branch].
  destruct (Z.eqb_spec s2 (NvGpuInfo.NVAPI_OK sdk)) as [E2|E2]; cbn [negb fst].
  2:{ eexists _, _. split; [reflexivity|]. split; [now right|].
      split; [discriminate | tauto]. }
  destruct (NvGpuInfo.NvAPI_SYS_GetPhysicalGPUs sdk _) as [[s3 count] handles].
  cbn [fst snd] in *.
  destruct (Z.eqb_spec s3 (NvGpuInfo.NVAPI_OK sdk)) as [E3|E3]; cbn [negb].
  2:{ eexists _, _. split; [reflexivity|]. split; [now right|].
      split; [discriminate | tauto]. }
  destruct (Z.le_gt_cases 0 count) as [Hpos|Hneg].
  - rewrite (dump_loop_run handles count _ (Z.to_nat count) 0) by lia.
    eexists _, _. split; [reflexivity|]. split; [now left | tauto].
  - cbn [NvGpuInfo.dump_loop]. destruct (Z.ltb_spec 0 count); [lia|].
    eexists _, _. split; [reflexivity|]. split; [now left | tauto].
Qed.

(** X14.  When [main] ends with status 0 it has printed the driver
    version line, the build branch line and then, for each GPU in index
    order, its three lines (name, PCI ids, dedicated memory, each either
    the values or the word error); and it has made the three setup calls
    followed by all three queries for every GPU, none being skipped after
    a failed one. *)
Theorem main_success_output code out :
  0 <= NvGpuInfo.gpu_count sdk < 2 ^ 32 ->
  NvGpuInfo.main sdk = Some (code, out) -> code = 0 ->
  NvGpuInfo.printed out =
    [NvGpuInfo.Printf (NvGpuInfo.line "driver version: %u")
       [NvGpuInfo.AInt (snd (fst (NvGpuInfo.NvAPI_SYS_GetDriverAndBranchVersion sdk)))];
     NvGpuInfo.Printf (NvGpuInfo.line "build branch string: %s")
       [NvGpuInfo.AStr (snd (NvGpuInfo.NvAPI_SYS_GetDriverAndBranchVersion sdk))]]
    ++ flat_map (fun k => NvGpuInfo.gpu_lines sdk (nth k (NvGpuInfo.gpu_handles sdk) 0)
                                              (Z.of_nat k))
                (seq 0 (Z.to_nat (NvGpuInfo.gpu_count sdk))) /\
  NvGpuInfo.api_calls out =
    ["NvAPI_Initialize"; "NvAPI_SYS_GetDriverAndBranchVersion";
     "NvAPI_SYS_GetPhysicalGPUs"]%string
    ++ flat_map (fun _ => ["NvAPI_GPU_GetFullName"; "NvAPI_GPU_GetPCIIdentifiers";
                           "NvAPI_GPU_GetMemoryInfoEx"]%string)
                (seq 0 (Z.to_nat (NvGpuInfo.gpu_count sdk))).
Proof.
  unfold NvGpuInfo.gpu_count, NvGpuInfo.gpu_handles, NvGpuInfo.enumerated.
  intros Hc. unfold NvGpuInfo.main, NvGpuInfo.fail. cbv zeta in *.
  destruct (negb (NvGpuInfo.NvAPI_Initialize sdk =? _)).
  { intros E ->. discriminate. }
  destruct (NvGpuInfo.NvAPI_SYS_GetDriverAndBranchVersion sdk) as [[s2 ver] branch].
  destruct (negb (s2 =? _)).
  { intros E ->. discriminate. }
  destruct (NvGpuInfo.NvAPI_SYS_GetPhysicalGPUs sdk _) as [[s3 count] handles].
  cbn [fst snd] in Hc |- *.
  destruct (negb (s3 =? _)).
  { intros E ->. discriminate. }
  rewrite (dump_loop_run handles count _ (Z.to_nat count) 0) by lia.
  intros E _. injection E as _ <-.
  change (Z.to_nat 0) with 0%nat.
  split.
  - unfold NvGpuInfo.printed. cbn [filter NvGpuInfo.is_printf app].
    f_equal. f_equal.
    match goal with
    | |- filter NvGpuInfo.is_printf ?l = ?r => change (NvGpuInfo.printed l = r)
    end.
    rewrite printed_flat_map.
    apply flat_map_ext. intros k. rewrite dump_gpu_printed. now rewrite Nat2Z.id.
  - unfold NvGpuInfo.api_calls at 1. cbn [flat_map app].
    f_equal. f_equal. f_equal.
    match goal with
    | |- flat_map _ ?l = ?r => change (NvGpuInfo.api_calls l = r)
    end.
    rewrite api_calls_flat_map.
    apply flat_map_ext. intros k. apply dump_gpu_api_calls.
Qed.

(** X15.  When [main] ends with a non-zero status, the last things it did
    are to fetch the vendor's message for the failing status and to print
    one of the three failure lines with that message; before that it made
    setup calls only, no per-GPU query. *)
Theorem main_failure_output code out :
  NvGpuInfo.main sdk = Some (code, out) -> code <> 0 ->
  exists status what before,
    status <> NvGpuInfo.NVAPI_OK sdk /\
    out = before ++
          [NvGpuInfo.Api "NvAPI_GetErrorMessage" [status];
           NvGpuInfo.Printf (NvGpuInfo.line what)
             [NvGpuInfo.AStr (NvGpuInfo.NvAPI_GetErrorMessage sdk status)]] /\
    In what ["Failed to initialise NVAPI: %s";
             "Failed to retrieve driver info: %s";
             "Failed to retrieve physical GPU descriptors: %s"]%string /\
    Forall (fun name => In name ["NvAPI_Initialize";
                                 "NvAPI_SYS_GetDriverAndBranchVersion";
                                 "NvAPI_SYS_GetPhysicalGPUs"]%string)
           (NvGpuInfo.api_calls before).
Proof.
  unfold NvGpuInfo.main, NvGpuInfo.fail. cbv zeta.
  destruct (Z.eqb_spec (NvGpuInfo.NvAPI_Initialize sdk) (NvGpuInfo.NVAPI_OK sdk)) as [E1|E1];
    cbn [negb].
  2:{ intros E _. injection E as _ <-.
      exists (NvGpuInfo.NvAPI_Initialize sdk), "Failed to initialise NVAPI: %s"%string,
             [NvGpuInfo.Api "NvAPI_Initialize" []].
      split; [exact E1|]. split; [reflexivity|].
      split; [cbn; auto|].
      cbn [NvGpuInfo.api_calls flat_map app].
      repeat (apply Forall_cons; [cbn; auto 10|]). apply Forall_nil. }
  destruct (NvGpuInfo.NvAPI_SYS_GetDriverAndBranchVersion sdk) as [[s2 ver] branch].
  destruct (Z.eqb_spec s2 (NvGpuInfo.NVAPI_OK sdk)) as [E2|E2]; cbn [negb].
  2:{ intros E _. injection E as _ <-.
      exists s2, "Failed to retrieve driver info: %s"%string,
             [NvGpuInfo.Api "NvAPI_Initialize" [];
              NvGpuInfo.Api "NvAPI_SYS_GetDriverAndBranchVersion" []].
      split; [exact E2|]. split; [reflexivity|].
      split; [cbn; auto|].
      cbn [NvGpuInfo.api_calls flat_map app].
      repeat (apply Forall_cons; [cbn; auto 10|]). apply Forall_nil. }
  destruct (NvGpuInfo.NvAPI_SYS_GetPhysicalGPUs sdk _) as [[s3 count] handles].
  destruct (Z.eqb_spec s3 (NvGpuInfo.NVAPI_OK sdk)) as [E3|E3]; cbn [negb].
  2:{ intros E _. injection E as _ <-.
      exists s3, "Failed to retrieve physical GPU descriptors: %s"%string,
             [NvGpuInfo.Api "NvAPI_Initialize" [];
              NvGpuInfo.Api "NvAPI_SYS_GetDriverAndBranchVersion" [];
              NvGpuInfo.Printf (NvGpuInfo.line "driver version: %u") [NvGpuInfo.AInt ver];
              NvGpuInfo.Printf (NvGpuInfo.line "build branch string: %s")
                [NvGpuInfo.AStr branch];
              NvGpuInfo.Api "NvAPI_SYS_GetPhysicalGPUs"
                [NvGpuInfo.NV_PHYSICAL_GPUS_VER1 sdk]].
      split; [exact E3|]. split; [reflexivity|].
      split; [cbn; auto|].
      cbn [NvGpuInfo.api_calls flat_map app].
      repeat (apply Forall_cons; [cbn; auto 10|]). apply Forall_nil. }
  destruct (NvGpuInfo.dump_loop sdk _ _ _ _ _); intros E Hn; [|discriminate].
  injection E as <- _. contradiction.
Qed.

End Dump.

(** ** The further statements at concrete environments *)

Lemma getVRAMSize_nonzero_success_witness :
  fst (getVRAMSize 64 (mock_loader 7 0 []) (mock_windows 0 0 1 0 8388608) []) <> 0 /\
  exists h, probe_succeeds (mock_loader 7 0 []) (mock_windows 0 0 1 0 8388608) h.
Proof.
  assert (Hnz : fst (getVRAMSize 64 (mock_loader 7 0 [])
                       (mock_windows 0 0 1 0 8388608) []) <> 0).
  { vm_compute. discriminate. }
  split; [exact Hnz|].
  destruct (getVRAMSize_nonzero_success 64 _ _ [] Hnz) as (h & Hs & _).
  exists h. exact Hs.
Defined.

Lemma getVRAMSize_primary_only_witness :
  lib_open (mock_loader 7 0 []) (primary (mock_linux 0 0 0 1024)) <> 0 /\
  getVRAMSize 64 (with_open (mock_loader 7 0 []) (secondary (mock_linux 0 0 0 1024)) 9)
              (mock_linux 0 0 0 1024) [] =
  getVRAMSize 64 (mock_loader 7 0 []) (mock_linux 0 0 0 1024) [].
Proof.
  assert (Hp : lib_open (mock_loader 7 0 []) (primary (mock_linux 0 0 0 1024)) <> 0).
  { vm_compute. discriminate. }
  split; [exact Hp|].
  exact (proj1 (getVRAMSize_primary_only 64 _ _ 9 [] Hp)).
Defined.

Lemma getVRAMSize_resolves_all_witness :
  lib_opened (mock_loader 7 0 ["NvAPI_Initialize"%string]) (mock_windows 0 0 1 0 0) 7 /\
  List.length
    (filter is_resolve
       (snd (getVRAMSize 64 (mock_loader 7 0 ["NvAPI_Initialize"%string])
               (mock_windows 0 0 1 0 0) []))) = 4%nat.
Proof.
  assert (Ho : lib_opened (mock_loader 7 0 ["NvAPI_Initialize"%string])
                 (mock_windows 0 0 1 0 0) 7).
  { split; [lia | left; reflexivity]. }
  split; [exact Ho|].
  rewrite (getVRAMSize_resolves_all 64 _ _ 7 Ho). reflexivity.
Defined.

Lemma getVRAMSize_first_device_witness :
  lib_opened (mock_loader 7 0 []) (mock_linux 0 0 0 1024) 7 /\
  hd 0 [42] = 42.
Proof.
  assert (Ho : lib_opened (mock_loader 7 0 []) (mock_linux 0 0 0 1024) 7).
  { split; [lia | left; reflexivity]. }
  split; [exact Ho|].
  assert (Hin : In (EvCall FMemory 30 [42] 0)
                   (snd (getVRAMSize 64 (mock_loader 7 0 []) (mock_linux 0 0 0 1024) []))).
  { vm_compute. do 7 right. left. reflexivity. }
  exact (proj2 (getVRAMSize_first_device 64 _ _ 7 30 [42] 0 Ho) Hin).
Defined.

Lemma getVRAMSize_result_range_witness :
  0 <= 32 /\
  0 <= fst (getVRAMSize 32 (mock_loader 7 0 []) (mock_windows 0 0 1 0 8388609) [])
    < 2 ^ 32 /\
  fst (getVRAMSize 32 (mock_loader 7 0 []) (mock_windows 0 0 1 0 8388609) []) mod 1024 = 0.
Proof.
  assert (Hb : 0 <= 32) by lia.
  assert (Hk : 10 <= 32) by lia.
  destruct (getVRAMSize_result_range 32 (mock_loader 7 0 [])
              (mock_windows 0 0 1 0 8388609) [] Hb) as [R K].
  split; [exact Hb|]. split; [exact R | exact (K Hk)].
Defined.

Lemma getVRAMSize_success_modulo_witness :
  probe_succeeds (mock_loader 7 0 []) (mock_windows 0 0 1 0 8388609) 7 /\
  fst (getVRAMSize 32 (mock_loader 7 0 []) (mock_windows 0 0 1 0 8388609) []) = 1024.
Proof.
  assert (Hs : probe_succeeds (mock_loader 7 0 []) (mock_windows 0 0 1 0 8388609) 7).
  { split; [split; [lia | left; reflexivity]|].
    split; [intros []; vm_compute; discriminate|].
    repeat split; try reflexivity. vm_compute. discriminate. }
  assert (Hb : 0 <= 32) by lia.
  split; [exact Hs|].
  exact (getVRAMSize_success_modulo 32 _ _ 7 [] Hs Hb).
Defined.

Lemma apple_asl_logger_log_no_truncation_witness :
  Asl.strlen (Asl.mock_message 2500) <= Asl.max_len /\
  exists w' texts,
    Asl.apple_asl_logger_log Asl.mock_lib 3 (Asl.mock_message 2500)
      (Asl.statics_init, []) = Asl.Done w' /\
    Asl.logged (snd w') = Asl.logged [] ++ texts /\
    Forall (fun text => Asl.strlen text < 1024) texts.
Proof.
  assert (H : Asl.strlen (Asl.mock_message 2500) <= Asl.max_len)
    by (vm_compute; discriminate).
  split; [exact H|].
  exact (apple_asl_logger_log_no_truncation Asl.mock_lib 3 (Asl.mock_message 2500)
           (Asl.statics_init, []) H).
Defined.



Lemma apple_asl_logger_log_overflow_witness :
  Asl.max_len < Asl.strlen (mock_long_message 2147483001) /\
  Asl.apple_asl_logger_log Asl.mock_lib 3 (mock_long_message 2147483001)
    (Asl.statics_init, []) = Asl.Undefined.
Proof.
  assert (H : Asl.max_len < Asl.strlen (mock_long_message 2147483001)).
  { unfold Asl.strlen, mock_long_message, Asl.max_len. rewrite repeat_length. lia. }
  split; [exact H|].
  exact (apple_asl_logger_log_overflow Asl.mock_lib 3 (mock_long_message 2147483001)
           (Asl.statics_init, []) H).
Defined.

Lemma main_exit_status_witness :
  NvGpuInfo.gpu_count (NvGpuInfo.mock_sdk 0 0 0 2) < 2 ^ 32 /\
  exists code out,
    NvGpuInfo.main (NvGpuInfo.mock_sdk 0 0 0 2) = Some (code, out) /\
    (code = 0 <-> NvGpuInfo.setup_ok (NvGpuInfo.mock_sdk 0 0 0 2)).
Proof.
  assert (H : NvGpuInfo.gpu_count (NvGpuInfo.mock_sdk 0 0 0 2) < 2 ^ 32)
    by (vm_compute; reflexivity).
  split; [exact H|].
  destruct (main_exit_status (NvGpuInfo.mock_sdk 0 0 0 2) H) as (code & out & E & _ & I).
  exists code, out. split; [exact E | exact I].
Defined.

Lemma main_success_output_witness :
  0 <= NvGpuInfo.gpu_count (NvGpuInfo.mock_sdk 0 0 0 2) < 2 ^ 32 /\
  exists out,
    NvGpuInfo.main (NvGpuInfo.mock_sdk 0 0 0 2) = Some (0, out) /\
    List.length (NvGpuInfo.printed out) = 8%nat /\
    List.length (NvGpuInfo.api_calls out) = 9%nat.
Proof.
  assert (H : 0 <= NvGpuInfo.gpu_count (NvGpuInfo.mock_sdk 0 0 0 2) < 2 ^ 32).
  { vm_compute. split; [discriminate | reflexivity]. }
  split; [exact H|].
  assert (E : exists out, NvGpuInfo.main (NvGpuInfo.mock_sdk 0 0 0 2) = Some (0, out))
    by (vm_compute; eexists; reflexivity).
  destruct E as [out E]. exists out. split; [exact E|].
  destruct (main_success_output (NvGpuInfo.mock_sdk 0 0 0 2) 0 out H E eq_refl)
    as [P A].
  rewrite P, A. split; reflexivity.
Defined.

Lemma main_failure_output_witness :
  exists out status what before,
    NvGpuInfo.main (NvGpuInfo.mock_sdk 0 3 0 2) = Some (-1, out) /\
    out = before ++
          [NvGpuInfo.Api "NvAPI_GetErrorMessage" [status];
           NvGpuInfo.Printf (NvGpuInfo.line what) [NvGpuInfo.AStr "error text"]].
Proof.
  assert (E : exists out, NvGpuInfo.main (NvGpuInfo.mock_sdk 0 3 0 2) = Some (-1, out))
    by (vm_compute; eexists; reflexivity).
  destruct E as [out E]. exists out.
  assert (Hn : -1 <> 0) by lia.
  destruct (main_failure_output (NvGpuInfo.mock_sdk 0 3 0 2) (-1) out E Hn)
    as (status & what & before & _ & E' & _).
  exists status, what, before. split; [exact E | exact E'].
Defined.
